(** * VQE for H2: the energy model, the optimisation trace and the bond scan

    A shallow embedding of [vqe_h2.py] (class [H2VQE]).

    Numbers.  The program computes with Python/NumPy floats.  The embedding
    reads every float operation as the operation on real numbers it rounds
    ([R] of the Standard Library, with [exp], [cos], [sin] and [PI]), so the
    results below are statements about the formulas the program evaluates,
    not about rounding or NaN.  Two effects of the range of a double are
    kept, because they decide what the program returns: [**] raises when
    the square is too large, and [np.exp] returns zero when its argument is
    below -746.  Decimal literals are the exact decimals written in the
    source.

    The two end-to-end scenarios at bond length 0.735 are replayed in
    binary64 (module [Binary64]), where the arithmetic is that of the
    machine and the library routines are taken at the points where they
    are exact; so are the coefficients at bond lengths where the
    exponentials underflow or round to one.

    Exceptions.  Indexing an array out of range and multiplying arrays of
    incompatible shapes raise in Python, and so does [**] on a Python float
    whose result is too large for a double; these operations return a
    [result] here, and methods of the class that assign to [self] live in a
    state-and-exception monad in which the state survives a raise, as the
    object does.  The bond length is a Python float, as the annotations of
    the class say (on a NumPy scalar [**] gives infinity instead of
    raising). *)

From Stdlib Require Import Reals Lra Lia List ZArith Bool.
From Stdlib Require Floats Uint63.
Import ListNotations.

Local Open Scope R_scope.

(** ** Exceptions *)

Inductive exn : Type :=
| IndexError
| ValueError
| OverflowError
| MinimizerError (code : Z).

Inductive result (A : Type) : Type :=
| Ok (a : A)
| Raise (e : exn).

Arguments Ok {A} a.
Arguments Raise {A} e.

Definition rbind {A B : Type} (r : result A) (k : A -> result B) : result B :=
  match r with
  | Ok a => k a
  | Raise e => Raise e
  end.

Declare Scope result_scope.
Delimit Scope result_scope with result.
Notation "x <- r ;; k" := (rbind r (fun x => k))
  (at level 61, r at next level, right associativity) : result_scope.

(** ** The NumPy operations the class uses, on one-dimensional arrays *)

Module np.

(** [np.sum(a)]: accumulation from 0. *)
Definition sum (a : list R) : R := fold_left Rplus a 0.

(** [np.prod(a)]: accumulation from 1. *)
Definition prod (a : list R) : R := fold_left Rmult a 1.

(** [np.arange(start, stop)] on integers. *)
Definition arange (start stop : Z) : list Z :=
  map (fun i => (start + Z.of_nat i)%Z) (seq 0 (Z.to_nat (stop - start))).

(** An integer array promoted to floats, as [*] does with a float array. *)
Definition as_float (a : list Z) : list R := map IZR a.

(** [np.ones(n)]. *)
Definition ones (n : nat) : list R := repeat 1 n.

(** [a * c] for an array [a] and a scalar [c]. *)
Definition scale (a : list R) (c : R) : list R := map (fun x => x * c) a.

Fixpoint zip_mult (a b : list R) : list R :=
  match a, b with
  | x :: a', y :: b' => x * y :: zip_mult a' b'
  | _, _ => []
  end.

(** [a * b] for two arrays: elementwise when the lengths agree, an array
    of length one is stretched, any other pair of shapes raises. *)
Definition multiply (a b : list R) : result (list R) :=
  if Nat.eqb (length a) (length b) then Ok (zip_mult a b)
  else match a, b with
       | [x], _ => Ok (map (fun y => x * y) b)
       | _, [y] => Ok (map (fun x => x * y) a)
       | _, _ => Raise ValueError
       end.

(** [a[i]] for a non-negative index [i]. *)
Definition getitem (a : list R) (i : nat) : result R :=
  match nth_error a i with
  | Some x => Ok x
  | None => Raise IndexError
  end.

(** [a[:n]]. *)
Definition take (n : nat) (a : list R) : list R := firstn n a.

(** [np.exp(x)] on a double.  Below -746 the exponential is less than half
    of the smallest positive double, 2^-1074, and the result is zero;
    elsewhere it is read as the real exponential. *)
Definition exp (x : R) : R :=
  if Rlt_dec x (-746) then 0 else Rtrigo_def.exp x.

End np.

(** ** Python floats *)

(** The square of a double rounds to infinity exactly when it is not below
    [2^1024 - 2^970], half-way between the largest double and [2^1024]. *)
Definition float_overflow : R := 2 ^ 1024 - 2 ^ 970.

(** [x ** 2] on a Python float: the square, or [OverflowError] when the
    result is out of range. *)
Definition py_pow2 (x : R) : result R :=
  if Rlt_dec (x ^ 2) float_overflow then Ok (x ^ 2) else Raise OverflowError.

(** ** The instance *)

(** The dictionary with the four keys ['II'], ['ZZ'], ['ZI'], ['IZ']. *)
Record Hamiltonian : Type := mkHamiltonian {
  II : R;
  ZZ : R;
  ZI : R;
  IZ : R
}.

(** [self.history]: the lists under ['energies'], ['params'] and
    ['iterations']. *)
Record History : Type := mkHistory {
  energies : list R;
  params_log : list (list R);
  iterations : list Z
}.

(** The attributes of an [H2VQE] object.  [backend] is stored by the
    constructor and read by no method, so it has no field. *)
Record H2VQE : Type := mkH2VQE {
  bond_length : R;
  history : History;
  optimal_energy : option R;
  optimal_params : option (list R);
  iteration_count : Z
}.

(** [H2VQE(bond_length)]. *)
Definition __init__ (bond_length : R) : H2VQE :=
  {| bond_length := bond_length;
     history := {| energies := []; params_log := []; iterations := [] |};
     optimal_energy := None;
     optimal_params := None;
     iteration_count := 0 |}.

Definition _calculate_hamiltonian_coefficients (self : H2VQE)
  : result Hamiltonian :=
  (let r := bond_length self in
   let h_ii := -1.0523732 in
   square_zz <- py_pow2 (r - 0.735) ;;
   let h_zz := 0.39793742 * np.exp (-0.1 * square_zz) in
   square_zi <- py_pow2 (r - 0.735) ;;
   let h_zi := -0.39793742 * 0.5 * np.exp (-0.05 * square_zi) in
   Ok {| II := h_ii; ZZ := h_zz; ZI := h_zi; IZ := h_zi |})%result.

Definition get_h2_hamiltonian_simplified (self : H2VQE) : result Hamiltonian :=
  (h_coeff <- _calculate_hamiltonian_coefficients self ;;
   Ok {| II := II h_coeff; ZZ := ZZ h_coeff;
         ZI := ZI h_coeff; IZ := IZ h_coeff |})%result.

(** [measure_expectation_value] reads [self.bond_length] and assigns
    nothing, so it is a function of the object and the parameters.  The
    conditional expressions evaluate the indexing only on their true
    branch. *)
Definition measure_expectation_value (self : H2VQE) (params : list R)
  : result R :=
  (h_dict <- get_h2_hamiltonian_simplified self ;;
   let energy := II h_dict in
   let param_sum := np.sum params in
   let param_prod :=
     if (4 <=? length params)%nat then np.prod (np.take 4 params) else 0.1 in
   let zz_exp := 0.3 * cos param_prod * sin param_sum in
   zi_exp <- (if (0 <? length params)%nat
              then (p0 <- np.getitem params 0 ;; Ok (0.2 * cos p0))
              else Ok 0.1) ;;
   iz_exp <- (if (1 <? length params)%nat
              then (p1 <- np.getitem params 1 ;; Ok (0.2 * sin p1))
              else Ok 0.1) ;;
   let energy := energy + ZZ h_dict * zz_exp in
   let energy := energy + ZI h_dict * zi_exp in
   let energy := energy + IZ h_dict * iz_exp in
   weighted <- np.multiply params
                 (np.as_float (np.arange 1 (Z.of_nat (length params) + 1))) ;;
   let noise := 0.001 * sin (np.sum weighted) in
   let energy := energy + noise in
   Ok energy)%result.

(** ** Methods that assign to [self] *)

(** A method body: from the object before to the value returned (or the
    exception raised) and the object after. *)
Definition M (A : Type) : Type := H2VQE -> result A * H2VQE.

Definition ret {A : Type} (a : A) : M A := fun self => (Ok a, self).

Definition bind {A B : Type} (m : M A) (k : A -> M B) : M B :=
  fun self =>
    match m self with
    | (Ok a, self') => k a self'
    | (Raise e, self') => (Raise e, self')
    end.

Definition lift {A : Type} (r : result A) : M A := fun self => (r, self).

Definition read : M H2VQE := fun self => (Ok self, self).

Definition assign (f : H2VQE -> H2VQE) : M unit := fun self => (Ok tt, f self).

Declare Scope method_scope.
Delimit Scope method_scope with method.
Notation "x <- m ;; k" := (bind m (fun x => k))
  (at level 61, m at next level, right associativity) : method_scope.
Notation "m ;; k" := (bind m (fun _ => k))
  (at level 61, right associativity) : method_scope.

(** The assignments of the class, one per attribute it writes. *)

Definition set_bond_length (r : R) (self : H2VQE) : H2VQE :=
  {| bond_length := r;
     history := history self;
     optimal_energy := optimal_energy self;
     optimal_params := optimal_params self;
     iteration_count := iteration_count self |}.

Definition set_iteration_count (n : Z) (self : H2VQE) : H2VQE :=
  {| bond_length := bond_length self;
     history := history self;
     optimal_energy := optimal_energy self;
     optimal_params := optimal_params self;
     iteration_count := n |}.

Definition set_optimal_energy (e : R) (self : H2VQE) : H2VQE :=
  {| bond_length := bond_length self;
     history := history self;
     optimal_energy := Some e;
     optimal_params := optimal_params self;
     iteration_count := iteration_count self |}.

Definition set_optimal_params (x : list R) (self : H2VQE) : H2VQE :=
  {| bond_length := bond_length self;
     history := history self;
     optimal_energy := optimal_energy self;
     optimal_params := Some x;
     iteration_count := iteration_count self |}.

Definition set_history (h : History) (self : H2VQE) : H2VQE :=
  {| bond_length := bond_length self;
     history := h;
     optimal_energy := optimal_energy self;
     optimal_params := optimal_params self;
     iteration_count := iteration_count self |}.

(** [self.history['energies'].append(e)] and its two siblings. *)

Definition append_energy (e : R) (self : H2VQE) : H2VQE :=
  let h := history self in
  set_history {| energies := energies h ++ [e];
                 params_log := params_log h;
                 iterations := iterations h |} self.

Definition append_params (xk : list R) (self : H2VQE) : H2VQE :=
  let h := history self in
  set_history {| energies := energies h;
                 params_log := params_log h ++ [xk];
                 iterations := iterations h |} self.

Definition append_iteration (n : Z) (self : H2VQE) : H2VQE :=
  let h := history self in
  set_history {| energies := energies h;
                 params_log := params_log h;
                 iterations := iterations h ++ [n] |} self.

(** [callback].  [xk.copy()] stores a snapshot, which a list value is.  The
    closing [print] every fifth iteration writes to the terminal only.  When
    the energy evaluation raises, the counter has already moved and nothing
    is appended. *)
Definition callback (xk : list R) : M unit :=
  (self <- read ;;
   assign (set_iteration_count (iteration_count self + 1)) ;;
   self <- read ;;
   energy <- lift (measure_expectation_value self xk) ;;
   assign (append_energy energy) ;;
   assign (append_params xk) ;;
   self <- read ;;
   assign (append_iteration (iteration_count self)))%method.

(** [get_energy_curve]: the loop over [bond_lengths], with the list
    [energies] built so far as accumulator. *)
Fixpoint energy_curve_loop (bond_lengths : list R) (energies : list R)
  : M (list R) :=
  match bond_lengths with
  | [] => ret energies
  | r :: rest =>
      (assign (set_bond_length r) ;;
       let params := np.scale (np.ones 8) 0.5 in
       self <- read ;;
       energy <- lift (measure_expectation_value self params) ;;
       energy_curve_loop rest (energies ++ [energy]))%method
  end.

Definition get_energy_curve (bond_lengths : list R) : M (list R * list R) :=
  (energies <- energy_curve_loop bond_lengths [] ;;
   ret (bond_lengths, energies))%method.

(** [get_history]: a copy of the dictionary. *)
Definition get_history (self : H2VQE) : History := history self.

(** ** The minimiser and [optimize] *)

(** What [scipy.optimize.minimize] hands back: [result.fun] and [result.x]. *)
Record OptimizeResult : Type := mkOptimizeResult {
  res_fun : R;
  res_x : list R
}.

(** One run of the minimiser as the class sees it: the points at which it
    invoked the callback, in order, and how the call ended (a result, or an
    exception raised after those invocations). *)
Record MinimizerRun : Type := mkMinimizerRun {
  callback_points : list (list R);
  outcome : result OptimizeResult
}.

Fixpoint for_each {A : Type} (f : A -> M unit) (l : list A) : M unit :=
  match l with
  | [] => ret tt
  | a :: l' => (f a ;; for_each f l')%method
  end.

Section Optimize.

(** The library routine [minimize(fun, x0, method='COBYLA',
    options={'maxiter': maxiter, 'rhobeg': 1.0}, callback=...)] is not
    part of the repository: any behaviour is allowed, given the objective,
    the start point and the budget. *)
Variable minimize : (list R -> result R) -> list R -> Z -> MinimizerRun.

(** [np.random.uniform(low, high, size)]: any draw. *)
Variable random_uniform : R -> R -> nat -> list R.

(** [optimize].  The objective is the bound method; the callback never
    assigns [bond_length], so the objective is the same function during
    the whole run.  The second [print] evaluates the energy of the start
    point before the minimiser is called. *)
Definition optimize (initial_params : option (list R)) (maxiter : Z)
  : M (R * list R) :=
  (let initial_params :=
     match initial_params with
     | None => random_uniform 0 (2 * PI) 8
     | Some p => p
     end in
   self <- read ;;
   _ <- lift (measure_expectation_value self initial_params) ;;
   let run := minimize (measure_expectation_value self) initial_params maxiter in
   for_each callback (callback_points run) ;;
   result <- lift (outcome run) ;;
   assign (set_optimal_energy (res_fun result)) ;;
   assign (set_optimal_params (res_x result)) ;;
   self <- read ;;
   ret (match optimal_energy self, optimal_params self with
        | Some e, Some x => (e, x)
        | _, _ => (res_fun result, res_x result)
        end))%method.

(** The start point [optimize] hands to the minimiser. *)
Definition start_point (initial_params : option (list R)) : list R :=
  match initial_params with
  | None => random_uniform 0 (2 * PI) 8
  | Some p => p
  end.

(** A use of the object: one of the calls that can change it. *)
Inductive call : Type :=
| CallOptimize (initial_params : option (list R)) (maxiter : Z)
| CallCallback (xk : list R)
| CallEnergyCurve (bond_lengths : list R).

Definition perform (c : call) (self : H2VQE) : H2VQE :=
  match c with
  | CallOptimize p n => snd (optimize p n self)
  | CallCallback xk => snd (callback xk self)
  | CallEnergyCurve l => snd (get_energy_curve l self)
  end.

(** The object after a sequence of calls, oldest first. *)
Definition after (calls : list call) (self : H2VQE) : H2VQE :=
  fold_left (fun s c => perform c s) calls self.


End Optimize.

(** ** The same energy model in binary64

    The arithmetic of the two methods on IEEE doubles, for replaying
    concrete calls.  Decimal literals denote the nearest double, as in
    Python.  The library routines stay parameters: the C library's [pow],
    which Python's [**] calls, and NumPy's [exp], [cos], [sin] and [sum],
    whose results depend on the library (the order in which [np.sum] adds
    is NumPy's own).  [np.prod] multiplies from left to right, starting
    at one. *)

Module Binary64.

Import Floats.
#[local] Set Warnings "-inexact-float".
Local Open Scope float_scope.

Definition prod64 (a : list float) : float := fold_left PrimFloat.mul a 1.

Definition arange64 (start stop : Z) : list float :=
  map (fun i => PrimFloat.of_uint63 (Uint63.of_Z (start + Z.of_nat i)))
      (seq 0 (Z.to_nat (stop - start))).

Fixpoint zip_mult64 (a b : list float) : list float :=
  match a, b with
  | x :: a', y :: b' => x * y :: zip_mult64 a' b'
  | _, _ => []
  end.

Definition multiply64 (a b : list float) : result (list float) :=
  if Nat.eqb (length a) (length b) then Ok (zip_mult64 a b)
  else match a, b with
       | [x], _ => Ok (map (fun y => x * y) b)
       | _, [y] => Ok (map (fun x => x * y) a)
       | _, _ => Raise ValueError
       end.

Definition getitem64 (a : list float) (i : nat) : result float :=
  match nth_error a i with
  | Some x => Ok x
  | None => Raise IndexError
  end.

Record Hamiltonian64 : Type := mkHamiltonian64 {
  II64 : float;
  ZZ64 : float;
  ZI64 : float;
  IZ64 : float
}.

Section Libm.

Variable libm_pow : float -> float -> float.
Variables np_exp np_cos np_sin : float -> float.
Variable np_sum : list float -> float.

(** [x ** 2] on a Python float.  A NaN is returned as it is, the square of
    an infinity is infinity, of a zero is zero and of plus or minus one is
    one, all without a call of [pow]; otherwise [pow] is called on the
    absolute value, and a result that is infinite raises
    [OverflowError]. *)
Definition float_pow2 (x : float) : result float :=
  if PrimFloat.is_nan x then Ok x
  else if PrimFloat.is_infinity x then Ok infinity
  else if PrimFloat.is_zero x then Ok 0
  else if abs x =? 1 then Ok 1
  else
    let z := libm_pow (abs x) 2 in
    if PrimFloat.is_infinity z then Raise OverflowError else Ok z.

Definition calculate_hamiltonian_coefficients64 (r : float)
  : result Hamiltonian64 :=
  (let h_ii := -1.0523732 in
   square_zz <- float_pow2 (r - 0.735) ;;
   let h_zz := 0.39793742 * np_exp (-0.1 * square_zz) in
   square_zi <- float_pow2 (r - 0.735) ;;
   let h_zi := -0.39793742 * 0.5 * np_exp (-0.05 * square_zi) in
   Ok {| II64 := h_ii; ZZ64 := h_zz; ZI64 := h_zi; IZ64 := h_zi |})%result.

Definition measure_expectation_value64 (r : float) (params : list float)
  : result float :=
  (h_dict <- calculate_hamiltonian_coefficients64 r ;;
   let energy := II64 h_dict in
   let param_sum := np_sum params in
   let param_prod :=
     if (4 <=? length params)%nat then prod64 (firstn 4 params) else 0.1 in
   let zz_exp := 0.3 * np_cos param_prod * np_sin param_sum in
   zi_exp <- (if (0 <? length params)%nat
              then (p0 <- getitem64 params 0 ;; Ok (0.2 * np_cos p0))
              else Ok 0.1) ;;
   iz_exp <- (if (1 <? length params)%nat
              then (p1 <- getitem64 params 1 ;; Ok (0.2 * np_sin p1))
              else Ok 0.1) ;;
   let energy := energy + ZZ64 h_dict * zz_exp in
   let energy := energy + ZI64 h_dict * zi_exp in
   let energy := energy + IZ64 h_dict * iz_exp in
   weighted <- multiply64 params
                 (arange64 1 (Z.of_nat (length params) + 1)) ;;
   let noise := 0.001 * np_sin (np_sum weighted) in
   let energy := energy + noise in
   Ok energy)%result.

End Libm.

End Binary64.

(** ** Vocabulary of the statements *)

(** The sum of [f 0], ..., [f (n - 1)]. *)
Fixpoint big_sum (n : nat) (f : nat -> R) : R :=
  match n with
  | O => 0
  | S k => big_sum k f + f k
  end.

(** [p[i]], where the index is in range. *)
Definition item (p : list R) (i : nat) : R := nth i p 0.

(** The overflow threshold as an integer. *)
Definition float_overflow_Z : Z := Eval vm_compute in (2 ^ 1024 - 2 ^ 970)%Z.

(** The bond lengths whose coefficients can be computed: the square does
    not overflow. *)
Definition in_range (r : R) : Prop := (r - 0.735) ^ 2 < float_overflow.

(** The coefficients at a bond length in range. *)
Definition hamiltonian_at (r : R) : Hamiltonian :=
  {| II := -1.0523732;
     ZZ := 0.39793742 * np.exp (-0.1 * (r - 0.735) ^ 2);
     ZI := -0.39793742 * 0.5 * np.exp (-0.05 * (r - 0.735) ^ 2);
     IZ := -0.39793742 * 0.5 * np.exp (-0.05 * (r - 0.735) ^ 2) |}.

(** The closed form of the claim, for coefficients [c] and parameters [p]. *)
Definition energy_formula (c : Hamiltonian) (p : list R) : R :=
  let s := big_sum (length p) (item p) in
  let q := if (4 <=? length p)%nat
           then item p 0 * item p 1 * item p 2 * item p 3 else 0.1 in
  let zi := if (0 <? length p)%nat then 0.2 * cos (item p 0) else 0.1 in
  let iz := if (1 <? length p)%nat then 0.2 * sin (item p 1) else 0.1 in
  II c + ZZ c * (0.3 * cos q * sin s) + ZI c * zi + IZ c * iz
  + 0.001 * sin (big_sum (length p) (fun i => item p i * INR (i + 1))).


(** The object after the loop: only [bond_length] was assigned, once per
    element, in order. *)
Definition scanned (bond_lengths : list R) (self : H2VQE) : H2VQE :=
  fold_left (fun s r => set_bond_length r s) bond_lengths self.

(** The energy the loop appends for the bond length [r]. *)
Definition scan_energy (r : R) : R :=
  energy_formula (hamiltonian_at r) (repeat 0.5 8).

(** ** The ansatz circuit

    [ansatz_circuit] builds a Qiskit [QuantumCircuit].  The circuit is the
    number of qubits it was created with and the instructions appended so
    far, in order; [qc.h], [qc.rz], [qc.rx] and [qc.cx] append one
    instruction each. *)

Inductive gate : Type :=
| GateH (qubit : nat)
| GateRZ (theta : R) (qubit : nat)
| GateRX (theta : R) (qubit : nat)
| GateCX (control target : nat).

Record QuantumCircuit : Type := mkQuantumCircuit {
  num_qubits : nat;
  data : list gate
}.

Module qc.

(** [QuantumCircuit(n)]. *)
Definition new (n : nat) : QuantumCircuit := {| num_qubits := n; data := [] |}.

Definition append (g : gate) (c : QuantumCircuit) : QuantumCircuit :=
  {| num_qubits := num_qubits c; data := data c ++ [g] |}.

Definition h (i : nat) (c : QuantumCircuit) : QuantumCircuit :=
  append (GateH i) c.

Definition rz (theta : R) (i : nat) (c : QuantumCircuit) : QuantumCircuit :=
  append (GateRZ theta i) c.

Definition rx (theta : R) (i : nat) (c : QuantumCircuit) : QuantumCircuit :=
  append (GateRX theta i) c.

Definition cx (i j : nat) (c : QuantumCircuit) : QuantumCircuit :=
  append (GateCX i j) c.

End qc.

(** A [for i in ...] loop whose body may raise, over the state [S]. *)
Fixpoint for_range {S : Type} (body : nat -> S -> result S)
         (indices : list nat) (st : S) : result S :=
  match indices with
  | [] => Ok st
  | i :: rest => (st' <- body i st ;; for_range body rest st')%result
  end.

(** The body of the two parameterised layers, for qubit [i]: the two
    guarded statements, on the circuit and [param_idx]. *)
Definition rotation_pair (params : list R) (i : nat)
           (st : QuantumCircuit * nat) : result (QuantumCircuit * nat) :=
  (st1 <- (if (snd st <? length params)%nat
           then (theta <- np.getitem params (snd st) ;;
                 Ok (qc.rz theta i (fst st), (snd st + 1)%nat))
           else Ok st) ;;
   if (snd st1 <? length params)%nat
   then (theta <- np.getitem params (snd st1) ;;
         Ok (qc.rx theta i (fst st1), (snd st1 + 1)%nat))
   else Ok st1)%result.

(** [ansatz_circuit(params, num_qubits)], for a number of qubits that
    [QuantumCircuit] accepts. *)
Definition ansatz_circuit (params : list R) (num_qubits : nat)
  : result QuantumCircuit :=
  (let c := qc.new num_qubits in
   let c := fold_left (fun c i => qc.h i c) (seq 0 num_qubits) c in
   let param_idx := 0%nat in
   st <- for_range (rotation_pair params) (seq 0 num_qubits) (c, param_idx) ;;
   let c := fold_left (fun c i => qc.cx i (i + 1) c)
              (seq 0 (num_qubits - 1)) (fst st) in
   st <- for_range (rotation_pair params) (seq 0 num_qubits) (c, snd st) ;;
   Ok (fst st))%result.

(** *** Vocabulary for the circuit *)

(** The [k]-th rotation of a circuit on [n] qubits: RZ for even [k], RX for
    odd [k], with angle [params[k]], on qubit [(k / 2) mod n]. *)
Definition rotation (params : list R) (n k : nat) : gate :=
  if Nat.even k then GateRZ (item params k) ((k / 2) mod n)
  else GateRX (item params k) ((k / 2) mod n).

(** The angles of the rotations of a gate list, in order. *)
Definition angles (gs : list gate) : list R :=
  flat_map (fun g => match g with
                     | GateRZ theta _ | GateRX theta _ => [theta]
                     | _ => []
                     end) gs.

(** What Qiskit requires of an instruction of a circuit on [n] qubits. *)
Definition gate_ok (n : nat) (g : gate) : Prop :=
  match g with
  | GateH q | GateRZ _ q | GateRX _ q => (q < n)%nat
  | GateCX c t => (c < n)%nat /\ (t < n)%nat /\ c <> t
  end.

(** The gate at offset [j] of a layer that starts at parameter [p] on
    qubit [a]. *)
Definition layer_gate (params : list R) (p a j : nat) : gate :=
  if Nat.even j then GateRZ (item params (p + j)) (a + j / 2)
  else GateRX (item params (p + j)) (a + j / 2).


(** *** Vocabulary for sequences of calls *)

(** Calls other than the scan. *)
Definition is_scan (c : call) : bool :=
  match c with
  | CallEnergyCurve _ => true
  | _ => false
  end.

(** Every recorded energy is the energy of the parameters recorded with
    it, at the bond length of the object. *)
Definition history_matches (self : H2VQE) : Prop :=
  Forall2 (fun x e => measure_expectation_value self x = Ok e)
    (params_log (history self)) (energies (history self)).


(** ** The example script ([quick_example.py])

    The examples print what they compute; the values printed are returned
    here beside the value of the function. *)

(** [l[i]] on a Python list, for any integer [i]: negative indices count
    from the end, and an index outside [-len(l), len(l))] raises. *)
Definition py_getitem {A : Type} (l : list A) (i : Z) : result A :=
  let n := Z.of_nat (length l) in
  let j := if (i <? 0)%Z then (n + i)%Z else i in
  if ((0 <=? j)%Z && (j <? n)%Z)%bool
  then match nth_error l (Z.to_nat j) with
       | Some x => Ok x
       | None => Raise IndexError
       end
  else Raise IndexError.

(** [np.linspace(start, stop, num)]: [num] evenly spaced samples, both ends
    included. *)
Definition np_linspace (start stop : R) (num : nat) : list R :=
  let step := (stop - start) / INR (num - 1) in
  map (fun i => start + INR i * step) (seq 0 num).

(** [np.argmin(a)]: the index of the first least entry; an empty sequence
    raises. *)
Fixpoint argmin_from (best_idx : nat) (best : R) (i : nat) (a : list R) : nat :=
  match a with
  | [] => best_idx
  | x :: a' =>
      if Rlt_dec x best then argmin_from i x (S i) a'
      else argmin_from best_idx best (S i) a'
  end.

Definition np_argmin (a : list R) : result nat :=
  match a with
  | [] => Raise ValueError
  | x :: a' => Ok (argmin_from 0 x 1 a')
  end.

(** What [example_3_energy_curve] prints after the table: the minimum
    energy and the bond length it is found at. *)
Record CurveMinimum : Type := mkCurveMinimum {
  minimum_energy : R;
  at_bond_length : R
}.

Definition example_3_energy_curve : result ((list R * list R) * CurveMinimum) :=
  let bond_lengths := np_linspace 0.4 2.0 12 in
  let vqe := __init__ 0.735 in
  match fst (get_energy_curve bond_lengths vqe) with
  | Raise e => Raise e
  | Ok (bond_lengths_calc, energies) =>
      (min_idx <- np_argmin energies ;;
       e_min <- py_getitem energies (Z.of_nat min_idx) ;;
       r_min <- py_getitem bond_lengths_calc (Z.of_nat min_idx) ;;
       Ok ((bond_lengths_calc, energies),
           {| minimum_energy := e_min; at_bond_length := r_min |}))%result
  end.

(** What [example_4_convergence_analysis] prints. *)
Record ConvergenceReport : Type := mkConvergenceReport {
  initial_energy : R;
  final_energy : R;
  energy_change : R;
  total_iterations : Z;
  rates : option (R * R)
}.

Section QuickExample.

Variable minimize : (list R -> result R) -> list R -> Z -> MinimizerRun.
Variable random_uniform : R -> R -> nat -> list R.

Definition example_4_convergence_analysis
  : result (H2VQE * ConvergenceReport) :=
  let vqe := __init__ 0.735 in
  match optimize minimize random_uniform None 100 vqe with
  | (Raise e, _) => Raise e
  | (Ok _, vqe) =>
      let history := get_history vqe in
      let energies := energies history in
      let iterations := iterations history in
      (initial <- py_getitem energies 0 ;;
       final <- py_getitem energies (-1) ;;
       change_last <- py_getitem energies (-1) ;;
       change_first <- py_getitem energies 0 ;;
       total <- py_getitem iterations (-1) ;;
       rates <-
         (if (1 <? length energies)%nat
          then
            let mid_point := (length energies / 2)%nat in
            early_rate <-
              (if (10 <? length energies)%nat
               then (e10 <- py_getitem energies 10 ;;
                     e0 <- py_getitem energies 0 ;;
                     Ok ((e10 - e0) / 10))
               else Ok 0) ;;
            late_last <- py_getitem energies (-1) ;;
            late_mid <- py_getitem energies (Z.of_nat mid_point) ;;
            Ok (Some (early_rate,
                      (late_last - late_mid)
                      / INR (length energies - mid_point)))
          else Ok None) ;;
       Ok (vqe,
           {| initial_energy := initial;
              final_energy := final;
              energy_change := change_last - change_first;
              total_iterations := total;
              rates := rates |}))%result
  end.

End QuickExample.

(** ** The dependency check ([verify_installation.py]) *)

From Stdlib Require String.

Module verify_installation.

Import String.

(** What [importlib.import_module(name)] does in the environment the
    script runs in: it returns a module, with or without a [__version__]
    attribute, or raises [ImportError], or raises something else. *)
Inductive import_outcome : Type :=
| Imported (version : option string)
| RaisesImportError
| RaisesOther.

(** One line of the report: the mark, the display name and what follows
    it. *)
Inductive detail : Type :=
| Version (v : string)
| InstalledNoVersion
| NotInstalled.

Record line : Type := mkLine {
  ok_mark : bool;
  shown_name : string;
  shown_detail : detail
}.

Section Environment.

Variable import_module : string -> import_outcome.

(** [display_name or module_name]: [None] and the empty string are
    false. *)
Definition or_name (display_name : option string) (module_name : string)
  : string :=
  match display_name with
  | None => module_name
  | Some EmptyString => module_name
  | Some s => s
  end.

(** [check_module]: the line printed and the value returned, or [None]
    when the import raises an exception that is not an [ImportError], which
    the [try] does not catch. *)
Definition check_module (module_name : string) (display_name : option string)
  : option (line * bool) :=
  let display_name := or_name display_name module_name in
  match import_module module_name with
  | Imported (Some version) =>
      Some ({| ok_mark := true; shown_name := display_name;
               shown_detail := Version version |}, true)
  | Imported None =>
      Some ({| ok_mark := true; shown_name := display_name;
               shown_detail := InstalledNoVersion |}, true)
  | RaisesImportError =>
      Some ({| ok_mark := false; shown_name := display_name;
               shown_detail := NotInstalled |}, false)
  | RaisesOther => None
  end.

Definition modules_to_check : list (string * string) :=
  [("qiskit", "Qiskit"); ("qiskit_aer", "Qiskit-Aer"); ("numpy", "NumPy");
   ("scipy", "SciPy"); ("matplotlib", "Matplotlib"); ("plotly", "Plotly");
   ("streamlit", "Streamlit")]%string.

(** The loop of [main], on the lines printed so far and [all_installed]. *)
Fixpoint check_loop (modules : list (string * string))
         (printed : list line) (all_installed : bool)
  : list line * option bool :=
  match modules with
  | [] => (printed, Some all_installed)
  | (module_name, display_name) :: rest =>
      match check_module module_name (Some display_name) with
      | None => (printed, None)
      | Some (l, found) =>
          check_loop rest (printed ++ [l])
            (if negb found then false else all_installed)
      end
  end.

(** Whether the import of a module succeeds. *)
Definition imports (module_name : string) : bool :=
  match import_module module_name with
  | Imported _ => true
  | _ => false
  end.

(** [main]: the module lines it prints and its return value, the exit
    status of the script ([None] when an exception escapes). *)
Definition main : list line * option Z :=
  match check_loop modules_to_check [] true with
  | (printed, Some all_installed) =>
      (printed, Some (if all_installed then 0%Z else 1%Z))
  | (printed, None) => (printed, None)
  end.

End Environment.

End verify_installation.

(** ** The dashboard ([app.py]): one run of the script, from the session
    initialisation to the results summary

    Streamlit runs the script from the top at every interaction;
    [st.session_state] is what survives from one run to the next.  The
    widgets give the values the run reads. *)

Module app.

(** [st.session_state] once both keys exist. *)
Record SessionState : Type := mkSessionState {
  vqe : option H2VQE;
  optimization_done : bool
}.

(** The sidebar values the fragment reads. *)
Record Widgets : Type := mkWidgets {
  bond_length_slider : R;
  max_iterations : Z;
  run_simulation : bool
}.

(** The message of the run branch. *)
Inductive run_message : Type :=
| NoRun
| Success (optimal_energy : R)
| Error (e : exn).

(** The four metrics of the results summary, before formatting. *)
Record Metrics : Type := mkMetrics {
  metric_energy : R;
  metric_bond_length : R;
  metric_iterations : Z;
  metric_error : R
}.

(** The results summary: not reached, shown, or stopped by the
    [TypeError] that formatting [None] with [:.6f] raises. *)
Inductive summary : Type :=
| NotShown
| Shown (m : Metrics)
| RaisesTypeError.

Section Script.

Variable minimize : (list R -> result R) -> list R -> Z -> MinimizerRun.
Variable random_uniform : R -> R -> nat -> list R.

(** Lines 95-99: the two keys are created when missing. *)
Definition init_session (st : option SessionState) : SessionState :=
  match st with
  | None => {| vqe := None; optimization_done := false |}
  | Some s => s
  end.

(** The minimiser run that a click on the button starts. *)
Definition clicked_run (w : Widgets) : MinimizerRun :=
  minimize (measure_expectation_value (__init__ (bond_length_slider w)))
    (random_uniform 0 (2 * PI) 8) (max_iterations w).

(** Lines 104-124: the run branch, with its [try]. *)
Definition run_branch (w : Widgets) (s : SessionState)
  : SessionState * run_message :=
  if run_simulation w then
    let fresh := __init__ (bond_length_slider w) in
    let initial_params := random_uniform 0 (2 * PI) 8 in
    match optimize minimize random_uniform (Some initial_params)
            (max_iterations w) fresh with
    | (Ok (optimal_energy, _), after_run) =>
        ({| vqe := Some after_run; optimization_done := true |},
         Success optimal_energy)
    | (Raise e, after_run) =>
        ({| vqe := Some after_run;
            optimization_done := optimization_done s |},
         Error e)
    end
  else (s, NoRun).

(** Lines 127-163: the results summary. *)
Definition results_summary (s : SessionState) : summary :=
  match optimization_done s, vqe s with
  | true, Some v =>
      match optimal_energy v with
      | None => RaisesTypeError
      | Some e =>
          let exp_energy := -1.17 in
          Shown {| metric_energy := e;
                   metric_bond_length := bond_length v;
                   metric_iterations := iteration_count v;
                   metric_error := Rabs (e - exp_energy) |}
      end
  | _, _ => NotShown
  end.

Definition rerun (w : Widgets) (st : option SessionState)
  : SessionState * run_message * summary :=
  let s := init_session st in
  let '(s, message) := run_branch w s in
  (s, message, results_summary s).

End Script.

End app.
(** * Properties *)

(** ** Sums and products of arrays *)

Lemma big_sum_ext (n : nat) (f g : nat -> R) :
  (forall i, (i < n)%nat -> f i = g i) -> big_sum n f = big_sum n g.
Proof.
  induction n as [|n IH]; intros Hfg; simpl.
  - reflexivity.
  - rewrite IH by (intros i Hi; apply Hfg; lia).
    rewrite (Hfg n) by lia. reflexivity.
Qed.

Lemma np_sum_snoc (l : list R) (x : R) : np.sum (l ++ [x]) = np.sum l + x.
Proof. unfold np.sum. rewrite fold_left_app. reflexivity. Qed.

Lemma item_snoc_last (l : list R) (x : R) : item (l ++ [x]) (length l) = x.
Proof. unfold item. apply nth_middle. Qed.

Lemma item_snoc_before (l : list R) (x : R) (i : nat) :
  (i < length l)%nat -> item (l ++ [x]) i = item l i.
Proof. intros Hi. unfold item. apply app_nth1. exact Hi. Qed.

Lemma np_sum_big_sum (p : list R) :
  np.sum p = big_sum (length p) (item p).
Proof.
  induction p as [|x l IH] using rev_ind.
  - reflexivity.
  - rewrite np_sum_snoc, length_app, Nat.add_1_r. cbn [big_sum].
    rewrite item_snoc_last, IH. f_equal. apply big_sum_ext.
    intros i Hi. rewrite item_snoc_before by exact Hi. reflexivity.
Qed.

Lemma arange_from_1 (n : nat) :
  np.arange 1 (Z.of_nat n + 1) = map (fun i => (1 + Z.of_nat i)%Z) (seq 0 n).
Proof.
  unfold np.arange.
  replace (Z.of_nat n + 1 - 1)%Z with (Z.of_nat n) by lia.
  rewrite Nat2Z.id. reflexivity.
Qed.

Lemma arange_from_1_length (n : nat) :
  length (np.as_float (np.arange 1 (Z.of_nat n + 1))) = n.
Proof.
  rewrite arange_from_1. unfold np.as_float.
  rewrite !length_map, length_seq. reflexivity.
Qed.

Lemma arange_from_1_succ (n : nat) :
  np.as_float (np.arange 1 (Z.of_nat (S n) + 1)) =
  np.as_float (np.arange 1 (Z.of_nat n + 1)) ++ [INR (n + 1)].
Proof.
  rewrite !arange_from_1. unfold np.as_float.
  rewrite seq_S, !map_app. cbn [map Nat.add]. do 2 f_equal.
  rewrite INR_IZR_INZ. f_equal. lia.
Qed.

Lemma zip_mult_snoc (a b : list R) (x y : R) :
  length a = length b ->
  np.zip_mult (a ++ [x]) (b ++ [y]) = np.zip_mult a b ++ [x * y].
Proof.
  revert b. induction a as [|u a IH]; intros [|v b] Hlen; simpl in *;
    try discriminate.
  - reflexivity.
  - rewrite IH by lia. reflexivity.
Qed.

(** The array product in the noise term never raises: the two arrays have
    the same length. *)
Lemma multiply_arange (p : list R) :
  np.multiply p (np.as_float (np.arange 1 (Z.of_nat (length p) + 1))) =
  Ok (np.zip_mult p (np.as_float (np.arange 1 (Z.of_nat (length p) + 1)))).
Proof.
  unfold np.multiply. rewrite arange_from_1_length, Nat.eqb_refl. reflexivity.
Qed.

Lemma weighted_sum_big_sum (p : list R) :
  np.sum (np.zip_mult p (np.as_float (np.arange 1 (Z.of_nat (length p) + 1)))) =
  big_sum (length p) (fun i => item p i * INR (i + 1)).
Proof.
  induction p as [|x l IH] using rev_ind.
  - reflexivity.
  - rewrite length_app, Nat.add_1_r, arange_from_1_succ.
    rewrite zip_mult_snoc by (rewrite arange_from_1_length; reflexivity).
    rewrite np_sum_snoc, IH. cbn [big_sum].
    rewrite item_snoc_last. f_equal.
    apply big_sum_ext. intros i Hi.
    rewrite item_snoc_before by exact Hi. reflexivity.
Qed.

Lemma prod_take_4 (p : list R) :
  (4 <= length p)%nat ->
  np.prod (np.take 4 p) = item p 0 * item p 1 * item p 2 * item p 3.
Proof.
  destruct p as [|a [|b [|c [|d p]]]]; simpl; try lia.
  intros _. unfold np.prod, item. simpl. ring.
Qed.

Lemma getitem_item (p : list R) (i : nat) :
  (i < length p)%nat -> np.getitem p i = Ok (item p i).
Proof.
  intros Hi. unfold np.getitem, item.
  destruct (nth_error p i) as [x|] eqn:E.
  - rewrite (nth_error_nth _ _ _ E). reflexivity.
  - apply nth_error_None in E. lia.
Qed.

(** ** The range of Python floats *)

Lemma float_overflow_IZR : float_overflow = IZR float_overflow_Z.
Proof.
  unfold float_overflow. rewrite !(pow_IZR 2), <- minus_IZR.
  apply f_equal. vm_compute. reflexivity.
Qed.

Lemma float_overflow_large : 100 < float_overflow.
Proof. rewrite float_overflow_IZR. unfold float_overflow_Z. lra. Qed.

Lemma in_range_dec (r : R) : {in_range r} + {~ in_range r}.
Proof. unfold in_range. apply Rlt_dec. Qed.

Lemma in_range_near (r : R) : -9 <= r <= 10 -> in_range r.
Proof. intros H. unfold in_range. pose proof float_overflow_large. nra. Qed.

Lemma in_range_equilibrium : in_range 0.735.
Proof. apply in_range_near. lra. Qed.

(** 1e200 is a double whose square is far beyond the largest double. *)
Lemma out_of_range_1e200 : ~ in_range 1e200.
Proof.
  unfold in_range. rewrite float_overflow_IZR. unfold float_overflow_Z. lra.
Qed.

Lemma py_pow2_in_range (x : R) :
  x ^ 2 < float_overflow -> py_pow2 x = Ok (x ^ 2).
Proof.
  intros H. unfold py_pow2.
  destruct (Rlt_dec (x ^ 2) float_overflow); [reflexivity|contradiction].
Qed.

Lemma py_pow2_out_of_range (x : R) :
  ~ x ^ 2 < float_overflow -> py_pow2 x = Raise OverflowError.
Proof.
  intros H. unfold py_pow2.
  destruct (Rlt_dec (x ^ 2) float_overflow); [contradiction|reflexivity].
Qed.

(** ** The coefficients *)

Lemma coefficients_in_range (self : H2VQE) :
  in_range (bond_length self) ->
  _calculate_hamiltonian_coefficients self =
  Ok (hamiltonian_at (bond_length self)).
Proof.
  intros H. unfold _calculate_hamiltonian_coefficients.
  rewrite (py_pow2_in_range _ H). reflexivity.
Qed.

Lemma coefficients_out_of_range (self : H2VQE) :
  ~ in_range (bond_length self) ->
  _calculate_hamiltonian_coefficients self = Raise OverflowError.
Proof.
  intros H. unfold _calculate_hamiltonian_coefficients.
  rewrite (py_pow2_out_of_range _ H). reflexivity.
Qed.

Lemma get_h2_in_range (self : H2VQE) :
  in_range (bond_length self) ->
  get_h2_hamiltonian_simplified self = Ok (hamiltonian_at (bond_length self)).
Proof.
  intros H. unfold get_h2_hamiltonian_simplified.
  rewrite (coefficients_in_range self H). reflexivity.
Qed.

Lemma get_h2_out_of_range (self : H2VQE) :
  ~ in_range (bond_length self) ->
  get_h2_hamiltonian_simplified self = Raise OverflowError.
Proof.
  intros H. unfold get_h2_hamiltonian_simplified.
  rewrite (coefficients_out_of_range self H). reflexivity.
Qed.

Lemma get_h2_hamiltonian_simplified_eq (self : H2VQE) :
  get_h2_hamiltonian_simplified self = _calculate_hamiltonian_coefficients self.
Proof.
  destruct (in_range_dec (bond_length self)) as [H|H].
  - rewrite get_h2_in_range, coefficients_in_range by exact H. reflexivity.
  - rewrite get_h2_out_of_range, coefficients_out_of_range by exact H.
    reflexivity.
Qed.

(** The coefficients are computed exactly for the bond lengths in range,
    and are then the values of the two formulas. *)
Lemma get_h2_returns (self : H2VQE) (c : Hamiltonian) :
  get_h2_hamiltonian_simplified self = Ok c ->
  in_range (bond_length self) /\ c = hamiltonian_at (bond_length self).
Proof.
  intros Hc. destruct (in_range_dec (bond_length self)) as [H|H].
  - rewrite get_h2_in_range in Hc by exact H. injection Hc as <-.
    split; [exact H|reflexivity].
  - rewrite get_h2_out_of_range in Hc by exact H. discriminate Hc.
Qed.


(** ** The value of the energy *)

Lemma measure_given_coefficients (self : H2VQE) (p : list R) (c : Hamiltonian) :
  get_h2_hamiltonian_simplified self = Ok c ->
  measure_expectation_value self p = Ok (energy_formula c p).
Proof.
  intros Hc. unfold measure_expectation_value, energy_formula.
  rewrite Hc. cbn [rbind].
  rewrite multiply_arange. cbn [rbind].
  rewrite weighted_sum_big_sum, np_sum_big_sum.
  destruct (Nat.ltb_spec 0 (length p)) as [H0|H0];
    destruct (Nat.ltb_spec 1 (length p)) as [H1|H1];
    destruct (Nat.leb_spec 4 (length p)) as [H4|H4];
    try lia;
    rewrite ?(getitem_item p 0 H0), ?(getitem_item p 1 H1),
            ?(prod_take_4 p H4);
    reflexivity.
Qed.

Lemma measure_without_coefficients (self : H2VQE) (p : list R) (e : exn) :
  get_h2_hamiltonian_simplified self = Raise e ->
  measure_expectation_value self p = Raise e.
Proof.
  intros He. unfold measure_expectation_value. rewrite He. reflexivity.
Qed.

Lemma measure_closed_form (self : H2VQE) (p : list R) :
  in_range (bond_length self) ->
  measure_expectation_value self p =
  Ok (energy_formula (hamiltonian_at (bond_length self)) p).
Proof.
  intros H. apply measure_given_coefficients, get_h2_in_range, H.
Qed.

Lemma measure_out_of_range (self : H2VQE) (p : list R) :
  ~ in_range (bond_length self) ->
  measure_expectation_value self p = Raise OverflowError.
Proof.
  intros H. apply measure_without_coefficients, get_h2_out_of_range, H.
Qed.

(** C1.  For every object and every parameter vector [p]: when the object
    yields coefficients [c], [measure_expectation_value] returns
    [c.II + c.ZZ*(0.3*cos(q)*sin(s)) + c.ZI*zi + c.IZ*iz +
    0.001*sin(sum of p[i]*(i+1))], with [s] the sum of [p], [q] the product
    of the first four entries when there are at least four and [0.1]
    otherwise, [zi = 0.2*cos(p[0])] when [p] is not empty and [0.1]
    otherwise, [iz = 0.2*sin(p[1])] when [p] has at least two entries and
    [0.1] otherwise; when the coefficients cannot be computed, the
    exception of that computation is raised. *)
Theorem measure_expectation_value_formula (self : H2VQE) (p : list R) :
  match get_h2_hamiltonian_simplified self with
  | Ok c =>
      let s := big_sum (length p) (fun i => item p i) in
      let q := if (4 <=? length p)%nat
               then item p 0 * item p 1 * item p 2 * item p 3 else 0.1 in
      let zi := if (0 <? length p)%nat then 0.2 * cos (item p 0) else 0.1 in
      let iz := if (1 <? length p)%nat then 0.2 * sin (item p 1) else 0.1 in
      measure_expectation_value self p =
      Ok (II c + ZZ c * (0.3 * cos q * sin s) + ZI c * zi + IZ c * iz
          + 0.001 * sin (big_sum (length p) (fun i => item p i * INR (i + 1))))
  | Raise e => measure_expectation_value self p = Raise e
  end.
Proof.
  destruct (get_h2_hamiltonian_simplified self) as [c|e] eqn:E.
  - exact (measure_given_coefficients self p c E).
  - exact (measure_without_coefficients self p e E).
Qed.

Lemma exponent_at_equilibrium (k : R) : k * (0.735 - 0.735) ^ 2 = 0.
Proof. ring. Qed.

(** ** [np.exp] *)

Lemma np_exp_exact (x : R) : -746 <= x -> np.exp x = exp x.
Proof.
  intros H. unfold np.exp. destruct (Rlt_dec x (-746)); [lra|reflexivity].
Qed.


Lemma np_exp_0 : np.exp 0 = 1.
Proof. rewrite np_exp_exact by lra. apply exp_0. Qed.



Lemma hamiltonian_at_equilibrium :
  hamiltonian_at 0.735 =
  {| II := -1.0523732; ZZ := 0.39793742; ZI := -0.19896871; IZ := -0.19896871 |}.
Proof.
  unfold hamiltonian_at.
  rewrite !exponent_at_equilibrium, np_exp_0.
  f_equal; lra.
Qed.

Lemma coefficients_at_equilibrium :
  _calculate_hamiltonian_coefficients (__init__ 0.735) =
  Ok {| II := -1.0523732; ZZ := 0.39793742;
        ZI := -0.19896871; IZ := -0.19896871 |}.
Proof.
  rewrite coefficients_in_range by exact in_range_equilibrium.
  cbn [__init__ bond_length]. rewrite hamiltonian_at_equilibrium. reflexivity.
Qed.

(** C3.  At bond length 0.735 the coefficients are II = -1.0523732,
    ZZ = 0.39793742, ZI = -0.19896871 and IZ = -0.19896871, both from
    [_calculate_hamiltonian_coefficients] and from
    [get_h2_hamiltonian_simplified]; the two exponentials are
    [np.exp 0 = exp 0 = 1]. *)
Theorem coefficients_at_0_735 :
  let self := __init__ 0.735 in
  let expected := {| II := -1.0523732; ZZ := 0.39793742;
                     ZI := -0.19896871; IZ := -0.19896871 |} in
  _calculate_hamiltonian_coefficients self = Ok expected /\
  get_h2_hamiltonian_simplified self = Ok expected /\
  np.exp (-0.1 * (bond_length self - 0.735) ^ 2) = 1 /\
  np.exp (-0.05 * (bond_length self - 0.735) ^ 2) = 1 /\
  np.exp 0 = exp 0.
Proof.
  cbv zeta. split; [|split; [|split; [|split]]].
  - exact coefficients_at_equilibrium.
  - rewrite get_h2_hamiltonian_simplified_eq. exact coefficients_at_equilibrium.
  - cbn [__init__ bond_length]. rewrite exponent_at_equilibrium.
    apply np_exp_0.
  - cbn [__init__ bond_length]. rewrite exponent_at_equilibrium.
    apply np_exp_0.
  - apply np_exp_exact. lra.
Qed.

(** C5.  For every object, whatever its bond length, the ZI and IZ
    coefficients of the dictionary that either method returns are the same
    number. *)
Theorem zi_equals_iz (self : H2VQE) (c : Hamiltonian) :
  get_h2_hamiltonian_simplified self = Ok c \/
  _calculate_hamiltonian_coefficients self = Ok c ->
  ZI c = IZ c.
Proof.
  intros Hc.
  assert (H : get_h2_hamiltonian_simplified self = Ok c)
    by (destruct Hc as [H|H]; [exact H|];
        rewrite get_h2_hamiltonian_simplified_eq; exact H).
  apply get_h2_returns in H. destruct H as [_ ->]. reflexivity.
Qed.

Lemma zi_equals_iz_witness :
  let c := {| II := -1.0523732; ZZ := 0.39793742;
              ZI := -0.19896871; IZ := -0.19896871 |} in
  (get_h2_hamiltonian_simplified (__init__ 0.735) = Ok c \/
   _calculate_hamiltonian_coefficients (__init__ 0.735) = Ok c) /\
  ZI c = IZ c.
Proof.
  cbv zeta. split.
  - right. exact coefficients_at_equilibrium.
  - exact (zi_equals_iz (__init__ 0.735) _
             (or_intror coefficients_at_equilibrium)).
Defined.





(** ** Particular parameter vectors *)

Lemma energy_single_parameter (c : Hamiltonian) (x : R) :
  energy_formula c [x] =
  II c + ZZ c * 0.3 * cos 0.1 * sin x + ZI c * 0.2 * cos x + IZ c * 0.1
  + 0.001 * sin x.
Proof.
  unfold energy_formula.
  cbn [length big_sum item nth Nat.leb Nat.ltb Nat.add INR].
  replace (0 + x) with x by ring.
  replace (0 + x * 1) with x by ring.
  ring.
Qed.

(** C6.  On a one-element vector [[x]] the energy uses
    [zi_exp = 0.2*cos(x)], the constant [0.1] for [iz_exp] and the constant
    [0.1] for the product: with the coefficients [c] of the object, the
    value is [c.II + c.ZZ*0.3*cos(0.1)*sin(x) + c.ZI*0.2*cos(x) + c.IZ*0.1 +
    0.001*sin(x)]. *)
Theorem measure_single_parameter (self : H2VQE) (x : R) :
  match get_h2_hamiltonian_simplified self with
  | Ok c =>
      measure_expectation_value self [x] =
      Ok (II c + ZZ c * 0.3 * cos 0.1 * sin x + ZI c * 0.2 * cos x
          + IZ c * 0.1 + 0.001 * sin x)
  | Raise e => measure_expectation_value self [x] = Raise e
  end.
Proof.
  destruct (get_h2_hamiltonian_simplified self) as [c|e] eqn:E.
  - rewrite (measure_given_coefficients self [x] c E).
    rewrite energy_single_parameter. reflexivity.
  - exact (measure_without_coefficients self [x] e E).
Qed.

Lemma energy_zeros (c : Hamiltonian) :
  energy_formula c [0; 0; 0; 0; 0; 0; 0; 0] = II c + 0.2 * ZI c.
Proof.
  unfold energy_formula.
  cbn [length big_sum item nth Nat.leb Nat.ltb].
  replace (0 * 0 * 0 * 0) with 0 by ring.
  replace (0 + 0 + 0 + 0 + 0 + 0 + 0 + 0 + 0) with 0 by ring.
  replace (0 + 0 * INR (0 + 1) + 0 * INR (1 + 1) + 0 * INR (2 + 1)
           + 0 * INR (3 + 1) + 0 * INR (4 + 1) + 0 * INR (5 + 1)
           + 0 * INR (6 + 1) + 0 * INR (7 + 1)) with 0 by ring.
  rewrite cos_0, sin_0. ring.
Qed.

Lemma get_h2_at_equilibrium :
  get_h2_hamiltonian_simplified (__init__ 0.735) =
  Ok {| II := -1.0523732; ZZ := 0.39793742;
        ZI := -0.19896871; IZ := -0.19896871 |}.
Proof.
  rewrite get_h2_hamiltonian_simplified_eq. exact coefficients_at_equilibrium.
Qed.

Lemma measure_zeros_at_equilibrium :
  measure_expectation_value (__init__ 0.735) [0; 0; 0; 0; 0; 0; 0; 0] =
  Ok (-1.092166942).
Proof.
  rewrite (measure_given_coefficients _ _ _ get_h2_at_equilibrium).
  rewrite energy_zeros. cbn [II ZI]. f_equal. lra.
Qed.

(** C2, as the code has it.  At the all-zeros vector of eight parameters and
    bond length 0.735 the energy is [II + 0.2*ZI], that is
    -1.0523732 + (-0.19896871)*0.2 = -1.092166942. *)
Theorem measure_zeros_value :
  measure_expectation_value (__init__ 0.735) [0; 0; 0; 0; 0; 0; 0; 0] =
  Ok (-1.0523732 + -0.19896871 * 0.2) /\
  -1.0523732 + -0.19896871 * 0.2 = -1.092166942.
Proof.
  split; [rewrite measure_zeros_at_equilibrium; f_equal|]; lra.
Qed.

(** C2, as stated, fails: the value at the all-zeros vector is not
    -1.0923464. *)
Lemma measure_zeros_not_1_0923464 :
  measure_expectation_value (__init__ 0.735) [0; 0; 0; 0; 0; 0; 0; 0] <>
  Ok (-1.0923464).
Proof.
  rewrite measure_zeros_at_equilibrium. intros H.
  injection H as H. lra.
Qed.

(** ** The two scenarios in binary64 *)

Section Binary64Scenarios.

Import Floats.
#[local] Set Warnings "-inexact-float".
Local Open Scope float_scope.

Variable libm_pow : float -> float -> float.
Variables np_exp np_cos np_sin : float -> float.
Variable np_sum : list float -> float.

(** The library routines are exact at these points: the exponential of
    minus zero is one, the cosine of zero is one, the sine of zero is
    zero, and a sum of zeros is zero. *)
Hypothesis exp_neg_zero : np_exp (- 0) = 1.
Hypothesis cos_zero : np_cos 0 = 1.
Hypothesis sin_zero : np_sin 0 = 0.
Hypothesis sum_zeros : np_sum [0; 0; 0; 0; 0; 0; 0; 0] = 0.

(** At the double 0.735 the exponents are minus zero and every product is
    exact: the coefficients are the doubles of the four literals. *)
Lemma binary64_coefficients_at_0_735 :
  Binary64.calculate_hamiltonian_coefficients64 libm_pow np_exp 0.735 =
  Ok {| Binary64.II64 := -1.0523732; Binary64.ZZ64 := 0.39793742;
        Binary64.ZI64 := -0.19896871; Binary64.IZ64 := -0.19896871 |}.
Proof.
  pose proof exp_neg_zero as He. vm_compute in He.
  vm_compute. rewrite He. vm_compute. reflexivity.
Qed.

(** At eight zeros the machine result is the double of -1.092166942. *)
Lemma binary64_measure_zeros :
  Binary64.measure_expectation_value64 libm_pow np_exp np_cos np_sin np_sum
    0.735 [0; 0; 0; 0; 0; 0; 0; 0] = Ok (-1.092166942).
Proof.
  pose proof exp_neg_zero as He. vm_compute in He.
  vm_compute. rewrite He, sum_zeros, cos_zero, sin_zero. vm_compute.
  reflexivity.
Qed.

(** That double is above the double of -1.0923464. *)
Lemma binary64_measure_zeros_gap :
  PrimFloat.ltb (-1.0923464) (-1.092166942) = true.
Proof. vm_compute. reflexivity. Qed.

End Binary64Scenarios.

(** ** The ends of the coefficient range in binary64 *)

Section Binary64Range.

Import Floats.
#[local] Set Warnings "-inexact-float".
Local Open Scope float_scope.

Variable libm_pow : float -> float -> float.
Variable np_exp : float -> float.

(** Where [pow] overflows, as at 1e200, no coefficient is returned. *)
Lemma binary64_coefficients_overflow :
  libm_pow 1e200 2 = infinity ->
  Binary64.calculate_hamiltonian_coefficients64 libm_pow np_exp 1e200 =
  Raise OverflowError.
Proof.
  intros Hpow. vm_compute in Hpow.
  vm_compute. rewrite Hpow. reflexivity.
Qed.

(** Where both exponentials underflow to zero, as at 1000, ZZ is zero and
    ZI is minus zero: the bounds of the coefficients are attained at both
    ends. *)
Lemma binary64_coefficients_underflow :
  let square := libm_pow (1000 - 0.735) 2 in
  PrimFloat.is_infinity square = false ->
  np_exp (-0.1 * square) = 0 ->
  np_exp (-0.05 * square) = 0 ->
  Binary64.calculate_hamiltonian_coefficients64 libm_pow np_exp 1000 =
  Ok {| Binary64.II64 := -1.0523732; Binary64.ZZ64 := 0;
        Binary64.ZI64 := -0; Binary64.IZ64 := -0 |}.
Proof.
  cbv zeta. intros Hfin Hzz Hzi.
  unfold Binary64.calculate_hamiltonian_coefficients64, Binary64.float_pow2.
  change (PrimFloat.is_nan (1000 - 0.735)) with false.
  change (PrimFloat.is_infinity (1000 - 0.735)) with false.
  change (PrimFloat.is_zero (1000 - 0.735)) with false.
  change (abs (1000 - 0.735) =? 1) with false.
  change (abs (1000 - 0.735)) with (1000 - 0.735).
  cbv iota zeta. rewrite Hfin. cbn [rbind]. rewrite Hzz, Hzi.
  vm_compute. reflexivity.
Qed.

(** Where both exponentials round to one, as next to 0.735, the
    coefficients are those of 0.735: the extreme values are attained away
    from 0.735 too. *)
Lemma binary64_coefficients_plateau :
  let square := libm_pow (0.735000001 - 0.735) 2 in
  PrimFloat.is_infinity square = false ->
  np_exp (-0.1 * square) = 1 ->
  np_exp (-0.05 * square) = 1 ->
  Binary64.calculate_hamiltonian_coefficients64 libm_pow np_exp 0.735000001 =
  Ok {| Binary64.II64 := -1.0523732; Binary64.ZZ64 := 0.39793742;
        Binary64.ZI64 := -0.19896871; Binary64.IZ64 := -0.19896871 |}.
Proof.
  cbv zeta. intros Hfin Hzz Hzi.
  unfold Binary64.calculate_hamiltonian_coefficients64, Binary64.float_pow2.
  change (PrimFloat.is_nan (0.735000001 - 0.735)) with false.
  change (PrimFloat.is_infinity (0.735000001 - 0.735)) with false.
  change (PrimFloat.is_zero (0.735000001 - 0.735)) with false.
  change (abs (0.735000001 - 0.735) =? 1) with false.
  change (abs (0.735000001 - 0.735)) with (0.735000001 - 0.735).
  cbv iota zeta. rewrite Hfin. cbn [rbind]. rewrite Hzz, Hzi.
  vm_compute. reflexivity.
Qed.

End Binary64Range.

(** The energy of the empty vector: every fallback constant is used and
    nothing is raised. *)
Lemma energy_empty (c : Hamiltonian) :
  energy_formula c [] = II c + 0.1 * ZI c + 0.1 * IZ c.
Proof.
  unfold energy_formula. cbn [length big_sum Nat.leb Nat.ltb].
  rewrite sin_0. ring.
Qed.

Lemma measure_empty_at_equilibrium :
  measure_expectation_value (__init__ 0.735) [] =
  Ok (-1.0523732 + 0.1 * -0.19896871 + 0.1 * -0.19896871).
Proof.
  rewrite (measure_given_coefficients _ _ _ get_h2_at_equilibrium).
  rewrite energy_empty. reflexivity.
Qed.

(** ** The recorded trace *)


(** One callback at a bond length in range: the counter moves first, then
    the three appends. *)
Lemma callback_run (xk : list R) (self : H2VQE) :
  in_range (bond_length self) ->
  callback xk self =
  (Ok tt,
   append_iteration (iteration_count self + 1)
     (append_params xk
        (append_energy (energy_formula (hamiltonian_at (bond_length self)) xk)
           (set_iteration_count (iteration_count self + 1) self)))).
Proof.
  intros Hr. unfold callback, bind, read, assign, lift.
  rewrite measure_closed_form by exact Hr. reflexivity.
Qed.

(** One callback at a bond length out of range: the counter has moved when
    the energy evaluation raises, and nothing is appended. *)
Lemma callback_raises (xk : list R) (self : H2VQE) :
  ~ in_range (bond_length self) ->
  callback xk self =
  (Raise OverflowError, set_iteration_count (iteration_count self + 1) self).
Proof.
  intros Hr. unfold callback, bind, read, assign, lift.
  rewrite measure_out_of_range by exact Hr. reflexivity.
Qed.

Lemma callback_bond_length (xk : list R) (self : H2VQE) :
  bond_length (snd (callback xk self)) = bond_length self.
Proof.
  destruct (in_range_dec (bond_length self)) as [H|H].
  - rewrite callback_run by exact H. reflexivity.
  - rewrite callback_raises by exact H. reflexivity.
Qed.


Lemma for_each_callback_ok (xs : list (list R)) (self : H2VQE) :
  in_range (bond_length self) ->
  fst (for_each callback xs self) = Ok tt.
Proof.
  revert self. induction xs as [|xk xs IH]; intros self Hr.
  - reflexivity.
  - cbn [for_each]. unfold bind.
    pose proof (callback_bond_length xk self) as Hb.
    rewrite callback_run in Hb |- * by exact Hr. cbn [snd] in Hb.
    apply IH. rewrite Hb. exact Hr.
Qed.


(** Two callbacks on a new object record the numbers 1 and 2. *)
Example callback_twice (x y : list R) :
  let self := snd (callback y (snd (callback x (__init__ 0.735)))) in
  iterations (history self) = [1; 2]%Z /\
  params_log (history self) = [x; y] /\
  iteration_count self = 2%Z.
Proof.
  cbv zeta. rewrite (callback_run x) by exact in_range_equilibrium.
  rewrite callback_run by exact in_range_equilibrium. repeat split.
Qed.

(** ** The scan over bond lengths *)

Lemma fixed_params_value :
  np.scale (np.ones 8) 0.5 = repeat 0.5 8.
Proof. cbn [np.scale np.ones repeat map]. repeat f_equal; lra. Qed.

Lemma measure_depends_on_bond_length (o1 o2 : H2VQE) (p : list R) :
  bond_length o1 = bond_length o2 ->
  measure_expectation_value o1 p = measure_expectation_value o2 p.
Proof.
  intros H. unfold measure_expectation_value, get_h2_hamiltonian_simplified,
    _calculate_hamiltonian_coefficients.
  rewrite H. reflexivity.
Qed.

Lemma scanned_snoc (l : list R) (r : R) (self : H2VQE) :
  scanned (l ++ [r]) self = set_bond_length r (scanned l self).
Proof. unfold scanned. rewrite fold_left_app. reflexivity. Qed.

Lemma energy_curve_loop_step (r : R) (rest acc : list R) (self : H2VQE) :
  in_range r ->
  energy_curve_loop (r :: rest) acc self =
  energy_curve_loop rest (acc ++ [scan_energy r]) (set_bond_length r self).
Proof.
  intros Hr. cbn [energy_curve_loop]. unfold bind at 1. cbn [assign].
  unfold bind at 1. cbn [read]. unfold bind at 1, lift.
  rewrite measure_closed_form by exact Hr.
  change (bond_length (set_bond_length r self)) with r.
  rewrite fixed_params_value. reflexivity.
Qed.

Lemma energy_curve_loop_overflow (r : R) (rest acc : list R) (self : H2VQE) :
  ~ in_range r ->
  energy_curve_loop (r :: rest) acc self =
  (Raise OverflowError, set_bond_length r self).
Proof.
  intros Hr. cbn [energy_curve_loop]. unfold bind at 1. cbn [assign].
  unfold bind at 1. cbn [read]. unfold bind at 1, lift.
  rewrite measure_out_of_range by exact Hr. reflexivity.
Qed.

(** The loop, in full: it runs to the end when every bond length is in
    range, and stops at the first one that is not, which is then the bond
    length of the object. *)
Lemma energy_curve_loop_cases (bond_lengths acc : list R) (self : H2VQE) :
  (Forall in_range bond_lengths /\
   energy_curve_loop bond_lengths acc self =
   (Ok (acc ++ map scan_energy bond_lengths), scanned bond_lengths self)) \/
  (exists (l1 : list R) (r : R) (l2 : list R),
      bond_lengths = l1 ++ r :: l2 /\
      Forall in_range l1 /\ ~ in_range r /\
      energy_curve_loop bond_lengths acc self =
      (Raise OverflowError, scanned (l1 ++ [r]) self)).
Proof.
  revert acc self. induction bond_lengths as [|r rest IH]; intros acc self.
  - left. split; [constructor|].
    cbn [energy_curve_loop map scanned fold_left]. rewrite app_nil_r.
    reflexivity.
  - destruct (in_range_dec r) as [Hr|Hr].
    + rewrite energy_curve_loop_step by exact Hr.
      destruct (IH (acc ++ [scan_energy r]) (set_bond_length r self))
        as [[Hall Hrun]|(l1 & r' & l2 & Hsplit & Hall & Hout & Hrun)].
      * left. split; [constructor; assumption|].
        rewrite Hrun. cbn [map scanned fold_left].
        rewrite <- app_assoc. reflexivity.
      * right. exists (r :: l1), r', l2.
        split; [rewrite Hsplit; reflexivity|].
        split; [constructor; assumption|].
        split; [exact Hout|]. rewrite Hrun. reflexivity.
    + right. exists [], r, rest. split; [reflexivity|].
      split; [constructor|]. split; [exact Hr|].
      apply energy_curve_loop_overflow. exact Hr.
Qed.

Lemma energy_curve_loop_run (bond_lengths acc : list R) (self : H2VQE) :
  Forall in_range bond_lengths ->
  energy_curve_loop bond_lengths acc self =
  (Ok (acc ++ map scan_energy bond_lengths), scanned bond_lengths self).
Proof.
  intros Hall.
  destruct (energy_curve_loop_cases bond_lengths acc self)
    as [[_ Hrun]|(l1 & r & l2 & -> & _ & Hout & _)]; [exact Hrun|].
  apply Forall_app in Hall. destruct Hall as [_ Hall].
  inversion Hall; subst. contradiction.
Qed.

Lemma get_energy_curve_run (bond_lengths : list R) (self : H2VQE) :
  Forall in_range bond_lengths ->
  get_energy_curve bond_lengths self =
  (Ok (bond_lengths, map scan_energy bond_lengths), scanned bond_lengths self).
Proof.
  intros Hall. unfold get_energy_curve, bind.
  rewrite energy_curve_loop_run by exact Hall. reflexivity.
Qed.

(** The scan raises exactly at the first bond length out of range. *)
Lemma get_energy_curve_stops (l1 l2 : list R) (r : R) (self : H2VQE) :
  Forall in_range l1 -> ~ in_range r ->
  get_energy_curve (l1 ++ r :: l2) self =
  (Raise OverflowError, scanned (l1 ++ [r]) self).
Proof.
  intros Hall Hout. unfold get_energy_curve, bind.
  destruct (energy_curve_loop_cases (l1 ++ r :: l2) [] self)
    as [[Hall' _]|(l1' & r' & l2' & Hsplit & Hall' & Hout' & Hrun)].
  - apply Forall_app in Hall'. destruct Hall' as [_ Hall'].
    inversion Hall'; subst. contradiction.
  - rewrite Hrun.
    assert (Hsame : l1' = l1 /\ r' = r).
    { clear Hrun. revert l1' Hsplit Hall'.
      induction l1 as [|a l1 IH]; intros [|a' l1'] Hsplit Hall';
        cbn [app] in Hsplit; injection Hsplit as Ha Hrest.
      - split; [reflexivity|symmetry; exact Ha].
      - subst. inversion Hall'; subst. contradiction.
      - subst. inversion Hall; subst. contradiction.
      - subst a'. inversion Hall; subst. inversion Hall'; subst.
        destruct (IH H2 l1' Hrest H4) as [-> ->]. split; reflexivity. }
    destruct Hsame as [-> ->]. reflexivity.
Qed.

(** A scan that returns found every bond length in range. *)
Lemma get_energy_curve_returned (bond_lengths : list R) (self : H2VQE)
      (out : list R * list R) :
  fst (get_energy_curve bond_lengths self) = Ok out ->
  Forall in_range bond_lengths.
Proof.
  unfold get_energy_curve, bind. intros Hout.
  destruct (energy_curve_loop_cases bond_lengths [] self)
    as [[Hall _]|(l1 & r & l2 & _ & _ & _ & Hrun)]; [exact Hall|].
  rewrite Hrun in Hout. discriminate Hout.
Qed.

(** Whatever the scan does, the object it leaves is the one before with
    the bond lengths of a prefix of the sequence assigned in order. *)
Lemma get_energy_curve_visits (bond_lengths : list R) (self : H2VQE) :
  exists visited : list R,
    snd (get_energy_curve bond_lengths self) = scanned visited self.
Proof.
  unfold get_energy_curve, bind.
  destruct (energy_curve_loop_cases bond_lengths [] self)
    as [[_ Hrun]|(l1 & r & l2 & _ & _ & _ & Hrun)]; rewrite Hrun.
  - exists bond_lengths. reflexivity.
  - exists (l1 ++ [r]). reflexivity.
Qed.

Lemma last_cons_default (l : list R) (a d d' : R) :
  last (a :: l) d = last (a :: l) d'.
Proof.
  revert a. induction l as [|b l IH]; intros a.
  - reflexivity.
  - change (last (b :: l) d = last (b :: l) d'). apply IH.
Qed.

Lemma in_range_test_points : Forall in_range [0.5; 0.735; 1.5].
Proof. repeat constructor; apply in_range_near; lra. Qed.

(** A scan of three bond lengths leaves the last one in the object and
    touches nothing else. *)
Example scan_three :
  snd (get_energy_curve [0.5; 0.735; 1.5] (__init__ 0.735)) = __init__ 1.5.
Proof. rewrite get_energy_curve_run by exact in_range_test_points. reflexivity. Qed.

Lemma scanned_bond_length (bond_lengths : list R) (self : H2VQE) :
  bond_length (scanned bond_lengths self) =
  last bond_lengths (bond_length self).
Proof.
  revert self. induction bond_lengths as [|r rest IH]; intros self.
  - reflexivity.
  - unfold scanned in *. cbn [fold_left]. rewrite IH.
    destruct rest as [|r' rest]; [reflexivity|].
    change (last (r' :: rest) (bond_length (set_bond_length r self)) =
            last (r' :: rest) (bond_length self)).
    apply last_cons_default.
Qed.

Lemma scanned_frame (bond_lengths : list R) (self : H2VQE) :
  history (scanned bond_lengths self) = history self /\
  iteration_count (scanned bond_lengths self) = iteration_count self /\
  optimal_energy (scanned bond_lengths self) = optimal_energy self /\
  optimal_params (scanned bond_lengths self) = optimal_params self.
Proof.
  revert self. induction bond_lengths as [|r rest IH]; intros self.
  - repeat split.
  - unfold scanned in *. cbn [fold_left].
    destruct (IH (set_bond_length r self)) as (H1 & H2 & H3 & H4).
    rewrite H1, H2, H3, H4. repeat split.
Qed.


(** C7, as the code has it.  When every bond length of the sequence is in
    range, [get_energy_curve] returns the input sequence and a list of
    energies of the same length, and the energy at each position is what
    [measure_expectation_value] returns, on any object whose bond length is
    the one at that position, for the vector of eight copies of 0.5. *)
Theorem get_energy_curve_shape (self : H2VQE) (bond_lengths : list R) :
  Forall in_range bond_lengths ->
  exists (es : list R) (self' : H2VQE),
    get_energy_curve bond_lengths self = (Ok (bond_lengths, es), self') /\
    length es = length bond_lengths /\
    Forall2 (fun r e =>
               forall o : H2VQE,
                 measure_expectation_value (set_bond_length r o)
                   [0.5; 0.5; 0.5; 0.5; 0.5; 0.5; 0.5; 0.5] = Ok e)
            bond_lengths es.
Proof.
  intros Hall.
  exists (map scan_energy bond_lengths), (scanned bond_lengths self).
  split; [apply get_energy_curve_run; exact Hall|].
  split; [apply length_map|].
  induction Hall as [|r rest Hr Hrest IH]; cbn [map]; constructor.
  - intros o.
    change [0.5; 0.5; 0.5; 0.5; 0.5; 0.5; 0.5; 0.5] with (repeat 0.5 8).
    rewrite measure_closed_form by exact Hr. reflexivity.
  - exact IH.
Qed.

Lemma get_energy_curve_shape_witness :
  Forall in_range [0.5; 0.735; 1.5] /\
  exists (es : list R) (self' : H2VQE),
    get_energy_curve [0.5; 0.735; 1.5] (__init__ 0.735) =
    (Ok ([0.5; 0.735; 1.5], es), self') /\
    length es = 3%nat /\
    Forall2 (fun r e =>
               forall o : H2VQE,
                 measure_expectation_value (set_bond_length r o)
                   [0.5; 0.5; 0.5; 0.5; 0.5; 0.5; 0.5; 0.5] = Ok e)
            [0.5; 0.735; 1.5] es.
Proof.
  split; [exact in_range_test_points|].
  exact (get_energy_curve_shape (__init__ 0.735) [0.5; 0.735; 1.5]
           in_range_test_points).
Defined.

(** C7, as stated, fails: on the sequence 0.5, 1e200, 1.5 nothing is
    returned; the scan raises [OverflowError] at the second element, which
    is left as the bond length of the object. *)
Lemma get_energy_curve_overflows :
  get_energy_curve [0.5; 1e200; 1.5] (__init__ 0.735) =
  (Raise OverflowError, __init__ 1e200).
Proof.
  rewrite (get_energy_curve_stops [0.5] [1.5] 1e200).
  - reflexivity.
  - repeat constructor. apply in_range_near. lra.
  - exact out_of_range_1e200.
Qed.

(** C8.  After [get_energy_curve] has returned on a non-empty sequence, the
    bond length of the object is the last element of the sequence. *)
Theorem get_energy_curve_bond_length (self : H2VQE) (bond_lengths : list R)
        (out : list R * list R) :
  bond_lengths <> [] ->
  fst (get_energy_curve bond_lengths self) = Ok out ->
  bond_length (snd (get_energy_curve bond_lengths self)) =
  last bond_lengths 0.
Proof.
  intros Hne Hout.
  rewrite get_energy_curve_run
    by (eapply get_energy_curve_returned; exact Hout).
  cbn [snd]. rewrite scanned_bond_length.
  destruct bond_lengths as [|r rest]; [contradiction|].
  apply last_cons_default.
Qed.

Lemma scan_three_returns :
  fst (get_energy_curve [0.5; 0.735; 1.5] (__init__ 0.735)) =
  Ok ([0.5; 0.735; 1.5], map scan_energy [0.5; 0.735; 1.5]).
Proof. rewrite get_energy_curve_run by exact in_range_test_points. reflexivity. Qed.

Lemma get_energy_curve_bond_length_witness :
  [0.5; 0.735; 1.5] <> [] /\
  fst (get_energy_curve [0.5; 0.735; 1.5] (__init__ 0.735)) =
    Ok ([0.5; 0.735; 1.5], map scan_energy [0.5; 0.735; 1.5]) /\
  bond_length (snd (get_energy_curve [0.5; 0.735; 1.5] (__init__ 0.735))) = 1.5.
Proof.
  split; [discriminate|]. split; [exact scan_three_returns|].
  exact (get_energy_curve_bond_length (__init__ 0.735) [0.5; 0.735; 1.5] _
           ltac:(discriminate) scan_three_returns).
Defined.

(** ** [optimize] and sequences of calls *)

Section OptimizeProperties.

Variable minimize : (list R -> result R) -> list R -> Z -> MinimizerRun.
Variable random_uniform : R -> R -> nat -> list R.

(** [optimize] at a bond length in range, step by step: the energy of the
    start point is evaluated, the callbacks run, then the outcome of the
    minimiser decides; [maxiter] is only passed on. *)
Lemma optimize_run (initial_params : option (list R)) (maxiter : Z)
      (self : H2VQE) :
  in_range (bond_length self) ->
  let run := minimize (measure_expectation_value self)
               (start_point random_uniform initial_params) maxiter in
  let self1 := snd (for_each callback (callback_points run) self) in
  optimize minimize random_uniform initial_params maxiter self =
  match outcome run with
  | Ok res =>
      (Ok (res_fun res, res_x res),
       set_optimal_params (res_x res) (set_optimal_energy (res_fun res) self1))
  | Raise e => (Raise e, self1)
  end.
Proof.
  intros Hr. cbv zeta. unfold optimize, bind, read, lift, assign, ret.
  fold (start_point random_uniform initial_params).
  rewrite measure_closed_form by exact Hr.
  set (run := minimize (measure_expectation_value self)
                (start_point random_uniform initial_params) maxiter).
  pose proof (for_each_callback_ok (callback_points run) self Hr) as Hok.
  destruct (for_each callback (callback_points run) self) as [r self1].
  cbn [fst snd] in *. subst r.
  destruct (outcome run) as [res|e]; reflexivity.
Qed.

(** [optimize] at a bond length out of range: the evaluation of the start
    point raises before the minimiser is called, and the object is
    untouched. *)
Lemma optimize_overflow (initial_params : option (list R)) (maxiter : Z)
      (self : H2VQE) :
  ~ in_range (bond_length self) ->
  optimize minimize random_uniform initial_params maxiter self =
  (Raise OverflowError, self).
Proof.
  intros Hr. unfold optimize, bind, read, lift.
  fold (start_point random_uniform initial_params).
  rewrite measure_out_of_range by exact Hr. reflexivity.
Qed.






(** C9, as the code has it.  No input is validated.  The energy of the
    empty vector is returned, with the three fallback constants, whenever
    the object yields coefficients; [measure_expectation_value] raises for
    no parameter vector, only [OverflowError] when the bond length is out of
    range; and [optimize] does not look at [maxiter]: it raises what the
    evaluation of the start point raises, and otherwise exactly what the
    minimiser raises. *)
Theorem no_input_validation :
  (forall self,
      match get_h2_hamiltonian_simplified self with
      | Ok c =>
          measure_expectation_value self [] =
          Ok (II c + 0.1 * ZI c + 0.1 * IZ c)
      | Raise e => measure_expectation_value self [] = Raise e
      end) /\
  (forall self p,
      (exists v, measure_expectation_value self p = Ok v) \/
      (~ in_range (bond_length self) /\
       measure_expectation_value self p = Raise OverflowError)) /\
  (forall self initial_params maxiter,
      fst (optimize minimize random_uniform initial_params maxiter self) =
      match measure_expectation_value self
              (start_point random_uniform initial_params) with
      | Raise e => Raise e
      | Ok _ =>
          match outcome (minimize (measure_expectation_value self)
                           (start_point random_uniform initial_params)
                           maxiter) with
          | Ok res => Ok (res_fun res, res_x res)
          | Raise e => Raise e
          end
      end).
Proof.
  split; [|split].
  - intros self.
    destruct (get_h2_hamiltonian_simplified self) as [c|e] eqn:E.
    + rewrite (measure_given_coefficients self [] c E), energy_empty.
      reflexivity.
    + exact (measure_without_coefficients self [] e E).
  - intros self p. destruct (in_range_dec (bond_length self)) as [Hr|Hr].
    + left. eexists. apply measure_closed_form. exact Hr.
    + right. split; [exact Hr|]. apply measure_out_of_range. exact Hr.
  - intros self initial_params maxiter.
    destruct (in_range_dec (bond_length self)) as [Hr|Hr].
    + rewrite optimize_run, measure_closed_form by exact Hr.
      destruct (outcome _); reflexivity.
    + rewrite optimize_overflow, measure_out_of_range by exact Hr.
      reflexivity.
Qed.

End OptimizeProperties.


(** A minimiser that reports two points and then fails leaves two records
    behind, and [optimize] raises its failure without storing a result. *)
Example optimize_interrupted (x y : list R) (draw : R -> R -> nat -> list R) :
  let failing := fun (_ : list R -> result R) (_ : list R) (_ : Z) =>
    {| callback_points := [x; y]; outcome := Raise (MinimizerError 1) |} in
  let out := optimize failing draw None 10 (__init__ 0.735) in
  fst out = Raise (MinimizerError 1) /\
  iterations (history (snd out)) = [1; 2]%Z /\
  iteration_count (snd out) = 2%Z /\
  optimal_energy (snd out) = None.
Proof.
  cbv zeta. rewrite optimize_run by exact in_range_equilibrium.
  cbn [outcome callback_points for_each]. unfold bind.
  rewrite (callback_run x) by exact in_range_equilibrium.
  rewrite callback_run by exact in_range_equilibrium. repeat split.
Qed.


(** C9, as stated, fails: the energy of the empty vector is returned, not
    refused. *)
Lemma empty_vector_is_evaluated :
  ~ exists e : exn, measure_expectation_value (__init__ 0.735) [] = Raise e.
Proof.
  intros [e He]. rewrite measure_empty_at_equilibrium in He. discriminate He.
Qed.

(** * Further properties *)

(** ** The ansatz circuit *)

Lemma fold_append (g : nat -> gate) (l : list nat) (c : QuantumCircuit) :
  fold_left (fun c i => qc.append (g i) c) l c =
  {| num_qubits := num_qubits c; data := data c ++ map g l |}.
Proof.
  revert c. induction l as [|i l IH]; intros c; cbn [fold_left map].
  - rewrite app_nil_r. destruct c; reflexivity.
  - rewrite IH. cbn [qc.append num_qubits data].
    rewrite <- app_assoc. reflexivity.
Qed.

Lemma layer_gate_shift (params : list R) (p a j : nat) :
  layer_gate params p a (S (S j)) = layer_gate params (p + 2) (S a) j.
Proof.
  unfold layer_gate. cbn [Nat.even].
  replace (p + S (S j))%nat with (p + 2 + j)%nat by lia.
  replace (a + S (S j) / 2)%nat with (S a + j / 2)%nat.
  - reflexivity.
  - change (S (S j)) with (2 + j)%nat.
    replace (2 + j)%nat with (1 * 2 + j)%nat by lia.
    rewrite Nat.div_add_l by lia. lia.
Qed.

Lemma layer_gate_0 (params : list R) (p a : nat) :
  layer_gate params p a 0 = GateRZ (item params p) a.
Proof. unfold layer_gate. cbn [Nat.even Nat.div]. rewrite !Nat.add_0_r. reflexivity. Qed.

Lemma layer_gate_1 (params : list R) (p a : nat) :
  layer_gate params p a 1 = GateRX (item params (p + 1)) a.
Proof.
  unfold layer_gate. cbn [Nat.even].
  replace (1 / 2)%nat with 0%nat by reflexivity.
  rewrite Nat.add_0_r. reflexivity.
Qed.

Lemma rotation_layer (params : list R) (m a p : nat) (c : QuantumCircuit) :
  (p <= length params)%nat ->
  for_range (rotation_pair params) (seq a m) (c, p) =
  Ok ({| num_qubits := num_qubits c;
         data := data c ++ map (layer_gate params p a)
                             (seq 0 (Nat.min (length params - p) (2 * m))) |},
      (p + Nat.min (length params - p) (2 * m))%nat).
Proof.
  revert a p c. induction m as [|m IH]; intros a p c Hp.
  - cbn [seq for_range]. rewrite Nat.mul_0_r, Nat.min_0_r, Nat.add_0_r.
    cbn [seq map]. rewrite app_nil_r. destruct c; reflexivity.
  - cbn [seq for_range]. unfold rotation_pair at 1. cbn [fst snd].
    destruct (Nat.ltb_spec p (length params)) as [Hlt|Hge].
    + rewrite (getitem_item params p Hlt). cbn [rbind fst snd].
      destruct (Nat.ltb_spec (p + 1) (length params)) as [Hlt2|Hge2].
      * rewrite (getitem_item params (p + 1) Hlt2). cbn [rbind].
        rewrite IH by lia.
        cbn [qc.rx qc.rz qc.append num_qubits data].
        replace (Nat.min (length params - p) (2 * S m))
          with (S (S (Nat.min (length params - (p + 1 + 1)) (2 * m)))) by lia.
        cbn [seq map]. rewrite <- !seq_shift, !map_map.
        rewrite <- !app_assoc. cbn [app].
        rewrite layer_gate_0, layer_gate_1.
        rewrite (map_ext _ _ (layer_gate_shift params p a)).
        replace (p + 1 + 1)%nat with (p + 2)%nat by lia.
        do 2 f_equal. lia.
      * cbn [rbind]. rewrite IH by lia.
        cbn [qc.rz qc.append num_qubits data].
        replace (Nat.min (length params - (p + 1)) (2 * m)) with 0%nat by lia.
        replace (Nat.min (length params - p) (2 * S m)) with 1%nat by lia.
        cbn [seq map]. rewrite app_nil_r, layer_gate_0.
        do 2 f_equal. lia.
    + cbn [rbind fst snd].
      destruct (Nat.ltb_spec p (length params)) as [Hlt|_]; [lia|].
      cbn [rbind]. rewrite IH by lia.
      replace (Nat.min (length params - p) (2 * m)) with 0%nat by lia.
      replace (Nat.min (length params - p) (2 * S m)) with 0%nat by lia.
      reflexivity.
Qed.

Lemma layer_gate_first (params : list R) (n j : nat) :
  (j < 2 * n)%nat -> layer_gate params 0 0 j = rotation params n j.
Proof.
  intros Hj. unfold layer_gate, rotation. cbn [Nat.add].
  rewrite (Nat.mod_small (j / 2) n)
    by (apply Nat.Div0.div_lt_upper_bound; lia).
  reflexivity.
Qed.

Lemma layer_gate_second (params : list R) (n j : nat) :
  (j < 2 * n)%nat ->
  layer_gate params (2 * n) 0 j = rotation params n (2 * n + j).
Proof.
  intros Hj. unfold layer_gate, rotation. cbn [Nat.add].
  assert (Hq : (j / 2 < n)%nat) by (apply Nat.Div0.div_lt_upper_bound; lia).
  replace (Nat.even (2 * n + j)) with (Nat.even j)
    by (rewrite Nat.add_comm, Nat.even_add_mul_2; reflexivity).
  replace ((2 * n + j) / 2)%nat with (j / 2 + 1 * n)%nat.
  - rewrite Nat.Div0.mod_add, Nat.mod_small by exact Hq. reflexivity.
  - replace (2 * n + j)%nat with (n * 2 + j)%nat by lia.
    rewrite Nat.div_add_l by lia. lia.
Qed.

Lemma map_seq_shift {A : Type} (f : nat -> A) (start len : nat) :
  map f (seq start len) = map (fun j => f (start + j)%nat) (seq 0 len).
Proof.
  revert start. induction len as [|len IH]; intros start.
  - reflexivity.
  - cbn [seq map]. rewrite Nat.add_0_r. f_equal.
    rewrite IH, <- seq_shift, map_map.
    apply map_ext. intros j. f_equal. lia.
Qed.

Lemma ansatz_circuit_closed_form (params : list R) (n : nat) :
  ansatz_circuit params n =
  Ok {| num_qubits := n;
        data :=
          map GateH (seq 0 n)
          ++ map (rotation params n) (seq 0 (Nat.min (length params) (2 * n)))
          ++ map (fun i => GateCX i (i + 1)) (seq 0 (n - 1))
          ++ map (rotation params n)
               (seq (2 * n) (Nat.min (length params) (4 * n) - 2 * n)) |}.
Proof.
  unfold ansatz_circuit.
  change (fun c i => qc.h i c) with (fun c i => qc.append (GateH i) c).
  change (fun c i => qc.cx i (i + 1) c)
    with (fun c i => qc.append (GateCX i (i + 1)) c).
  rewrite fold_append. cbn [qc.new num_qubits data app].
  rewrite rotation_layer by lia. cbn [rbind fst snd].
  rewrite fold_append. cbn [num_qubits data].
  rewrite rotation_layer by lia. cbn [rbind fst snd num_qubits data].
  rewrite Nat.sub_0_r, Nat.add_0_l.
  f_equal. f_equal. rewrite <- !app_assoc. f_equal. f_equal.
  - apply map_ext_in. intros j Hj. apply in_seq in Hj.
    apply layer_gate_first. lia.
  - f_equal.
    destruct (Nat.le_gt_cases (length params) (2 * n)) as [Hle|Hgt].
    + replace (Nat.min (length params - Nat.min (length params) (2 * n)) (2 * n))
        with 0%nat by lia.
      replace (Nat.min (length params) (4 * n) - 2 * n)%nat with 0%nat by lia.
      reflexivity.
    + replace (Nat.min (length params) (2 * n)) with (2 * n)%nat by lia.
      replace (Nat.min (length params - 2 * n) (2 * n))
        with (Nat.min (length params) (4 * n) - 2 * n)%nat by lia.
      rewrite (map_seq_shift (rotation params n)).
      apply map_ext_in. intros j Hj. apply in_seq in Hj.
      apply layer_gate_second. lia.
Qed.

(** X1.  [ansatz_circuit] never raises.  The circuit it returns has, in
    this order: a Hadamard on every qubit; the rotations number 0 to
    [min(len(params), 2n) - 1]; a controlled-X from each qubit to the next;
    the rotations number [2n] to [min(len(params), 4n) - 1].  Rotation [k]
    is RZ for even [k] and RX for odd [k], has angle [params[k]] and acts
    on qubit [(k / 2) mod n]. *)
Theorem ansatz_circuit_structure (params : list R) (n : nat) :
  ansatz_circuit params n =
  Ok {| num_qubits := n;
        data :=
          map GateH (seq 0 n)
          ++ map (rotation params n) (seq 0 (Nat.min (length params) (2 * n)))
          ++ map (fun i => GateCX i (i + 1)) (seq 0 (n - 1))
          ++ map (rotation params n)
               (seq (2 * n) (Nat.min (length params) (4 * n) - 2 * n)) |}.
Proof. exact (ansatz_circuit_closed_form params n). Qed.

Lemma angles_app (g1 g2 : list gate) : angles (g1 ++ g2) = angles g1 ++ angles g2.
Proof. unfold angles. apply flat_map_app. Qed.

Lemma angles_hadamards (l : list nat) : angles (map GateH l) = [].
Proof. induction l as [|i l IH]; [reflexivity|exact IH]. Qed.

Lemma angles_cx (l : list nat) :
  angles (map (fun i => GateCX i (i + 1)) l) = [].
Proof. induction l as [|i l IH]; [reflexivity|exact IH]. Qed.

Lemma angles_rotations (params : list R) (n : nat) (l : list nat) :
  angles (map (rotation params n) l) = map (item params) l.
Proof.
  induction l as [|k l IH]; [reflexivity|].
  unfold angles in *. cbn [map flat_map]. rewrite IH.
  unfold rotation. destruct (Nat.even k); reflexivity.
Qed.

Lemma firstn_items (p : list R) (c : nat) :
  (c <= length p)%nat -> map (item p) (seq 0 c) = firstn c p.
Proof.
  revert c. induction p as [|x p IH]; intros c Hc.
  - cbn [length] in Hc. replace c with 0%nat by lia. reflexivity.
  - destruct c as [|c]; [reflexivity|].
    cbn [seq map firstn]. f_equal.
    rewrite <- seq_shift, map_map. cbn [length] in Hc.
    rewrite <- (IH c) by lia. apply map_ext. intros j. reflexivity.
Qed.

(** X2.  The angles of the rotations of the circuit, read in order, are
    the first [4n] parameters (all of them when there are fewer): every
    one of these is used exactly once and no parameter beyond them is
    used. *)
Theorem ansatz_circuit_angles (params : list R) (n : nat) :
  exists c : QuantumCircuit,
    ansatz_circuit params n = Ok c /\
    angles (data c) = firstn (4 * n) params.
Proof.
  eexists. split; [apply ansatz_circuit_closed_form|].
  cbn [data]. rewrite !angles_app, angles_hadamards, angles_cx.
  rewrite !angles_rotations. cbn [app].
  destruct (Nat.le_gt_cases (length params) (2 * n)) as [Hle|Hgt].
  - replace (Nat.min (length params) (4 * n) - 2 * n)%nat with 0%nat by lia.
    replace (Nat.min (length params) (2 * n)) with (length params) by lia.
    cbn [seq map]. rewrite app_nil_r, firstn_items by lia.
    rewrite firstn_all, firstn_all2 by lia. reflexivity.
  - replace (Nat.min (length params) (2 * n)) with (2 * n)%nat by lia.
    rewrite <- map_app, <- seq_app.
    replace (2 * n + (Nat.min (length params) (4 * n) - 2 * n))%nat
      with (Nat.min (length params) (4 * n)) by lia.
    rewrite firstn_items by lia.
    destruct (Nat.le_gt_cases (length params) (4 * n)) as [Hle4|Hgt4].
    + replace (Nat.min (length params) (4 * n)) with (length params) by lia.
      rewrite firstn_all, firstn_all2 by lia. reflexivity.
    + replace (Nat.min (length params) (4 * n)) with (4 * n)%nat by lia.
      reflexivity.
Qed.

Lemma rotation_ok (params : list R) (n k : nat) :
  (0 < n)%nat -> gate_ok n (rotation params n k).
Proof.
  intros Hn. unfold rotation.
  destruct (Nat.even k); cbn [gate_ok]; apply Nat.mod_upper_bound; lia.
Qed.

(** X3.  Every instruction of the circuit addresses qubits below [n], and
    every controlled-X has two different qubits; the circuit has
    [n + min(len(params), 4n) + (n - 1)] instructions. *)
Theorem ansatz_circuit_well_formed (params : list R) (n : nat) :
  exists c : QuantumCircuit,
    ansatz_circuit params n = Ok c /\
    num_qubits c = n /\
    Forall (gate_ok n) (data c) /\
    length (data c) = (n + Nat.min (length params) (4 * n) + (n - 1))%nat.
Proof.
  eexists. split; [apply ansatz_circuit_closed_form|].
  cbn [num_qubits data]. split; [reflexivity|]. split.
  - rewrite !Forall_app. repeat split.
    + apply Forall_forall. intros g Hg. apply in_map_iff in Hg.
      destruct Hg as (i & <- & Hi). apply in_seq in Hi. cbn [gate_ok]. lia.
    + apply Forall_forall. intros g Hg. apply in_map_iff in Hg.
      destruct Hg as (k & <- & Hk). apply in_seq in Hk.
      apply rotation_ok. lia.
    + apply Forall_forall. intros g Hg. apply in_map_iff in Hg.
      destruct Hg as (i & <- & Hi). apply in_seq in Hi. cbn [gate_ok]. lia.
    + apply Forall_forall. intros g Hg. apply in_map_iff in Hg.
      destruct Hg as (k & <- & Hk). apply in_seq in Hk.
      apply rotation_ok. lia.
  - rewrite !length_app, !length_map, !length_seq. lia.
Qed.

(** X4.  On two qubits with eight parameters the circuit is the one the
    dashboard describes: H on q0 and q1; RZ(t0), RX(t1) on q0; RZ(t2),
    RX(t3) on q1; CX from q0 to q1; RZ(t4), RX(t5) on q0; RZ(t6), RX(t7)
    on q1. *)
Theorem ansatz_circuit_default (t0 t1 t2 t3 t4 t5 t6 t7 : R) :
  ansatz_circuit [t0; t1; t2; t3; t4; t5; t6; t7] 2 =
  Ok {| num_qubits := 2;
        data := [GateH 0; GateH 1;
                 GateRZ t0 0; GateRX t1 0; GateRZ t2 1; GateRX t3 1;
                 GateCX 0 1;
                 GateRZ t4 0; GateRX t5 0; GateRZ t6 1; GateRX t7 1] |}.
Proof. reflexivity. Qed.

(** X5.  When there are at most [2n] parameters, nothing follows the
    entangling layer: the circuit ends with the controlled-X gates, and
    with no parameter at all it has no rotation. *)
Theorem ansatz_circuit_few_parameters (params : list R) (n : nat) :
  (length params <= 2 * n)%nat ->
  ansatz_circuit params n =
  Ok {| num_qubits := n;
        data := map GateH (seq 0 n)
                ++ map (rotation params n) (seq 0 (length params))
                ++ map (fun i => GateCX i (i + 1)) (seq 0 (n - 1)) |}.
Proof.
  intros Hlen. rewrite ansatz_circuit_closed_form.
  replace (Nat.min (length params) (2 * n)) with (length params) by lia.
  replace (Nat.min (length params) (4 * n) - 2 * n)%nat with 0%nat by lia.
  cbn [seq map]. rewrite app_nil_r. reflexivity.
Qed.

Lemma ansatz_circuit_few_parameters_witness :
  (length [0.1; 0.2; 0.3; 0.4]%R <= 2 * 2)%nat /\
  ansatz_circuit [0.1; 0.2; 0.3; 0.4] 2 =
  Ok {| num_qubits := 2;
        data := [GateH 0; GateH 1;
                 GateRZ 0.1 0; GateRX 0.2 0; GateRZ 0.3 1; GateRX 0.4 1;
                 GateCX 0 1] |}.
Proof.
  split; [simpl; lia|].
  exact (ansatz_circuit_few_parameters [0.1; 0.2; 0.3; 0.4] 2
           ltac:(simpl; lia)).
Defined.

(** ** The history across calls *)

(** What a list of callbacks adds to an object whose bond length is in
    range. *)
Lemma for_each_callback_extends (xs : list (list R)) (self : H2VQE) :
  in_range (bond_length self) ->
  let self' := snd (for_each callback xs self) in
  bond_length self' = bond_length self /\
  optimal_energy self' = optimal_energy self /\
  optimal_params self' = optimal_params self /\
  iteration_count self' = (iteration_count self + Z.of_nat (length xs))%Z /\
  params_log (history self') = params_log (history self) ++ xs /\
  iterations (history self') =
    iterations (history self)
    ++ map (fun j => (iteration_count self + Z.of_nat j)%Z)
         (seq 1 (length xs)) /\
  exists es : list R,
    energies (history self') = energies (history self) ++ es /\
    Forall2 (fun x e => measure_expectation_value self x = Ok e) xs es.
Proof.
  cbv zeta. revert self. induction xs as [|xk xs IH]; intros self Hr.
  - cbn [for_each ret snd length seq map]. rewrite Z.add_0_r, !app_nil_r.
    repeat split. exists []. rewrite app_nil_r. split; constructor.
  - cbn [for_each]. unfold bind. rewrite callback_run by exact Hr.
    remember (append_iteration (iteration_count self + 1)
                (append_params xk
                   (append_energy
                      (energy_formula (hamiltonian_at (bond_length self)) xk)
                      (set_iteration_count (iteration_count self + 1) self))))
      as self1 eqn:E1.
    assert (Hr1 : in_range (bond_length self1)) by (subst self1; exact Hr).
    destruct (IH self1 Hr1) as (Hb & Hoe & Hop & Hc & Hp & Hi & es & He & Hes).
    rewrite Hb, Hoe, Hop, Hc, Hp, Hi, He. subst self1.
    cbn [append_iteration append_params append_energy set_history
         set_iteration_count history iteration_count energies params_log
         iterations bond_length optimal_energy optimal_params length].
    repeat split.
    + lia.
    + rewrite <- app_assoc. reflexivity.
    + rewrite <- app_assoc. cbn [seq map app]. f_equal. f_equal.
      rewrite <- (seq_shift (length xs) 1), map_map.
      apply map_ext. intros j. lia.
    + exists (energy_formula (hamiltonian_at (bond_length self)) xk :: es).
      split; [rewrite <- app_assoc; reflexivity|].
      constructor; [apply measure_closed_form; exact Hr|].
      eapply Forall2_impl; [|exact Hes]. cbv beta. intros x e Hxe.
      rewrite <- Hxe. apply measure_depends_on_bond_length. reflexivity.
Qed.

Section HistoryProperties.

Variable minimize : (list R -> result R) -> list R -> Z -> MinimizerRun.
Variable random_uniform : R -> R -> nat -> list R.

(** A run of [optimize] that gets past the evaluation of the start
    point. *)
Lemma optimize_extends (initial_params : option (list R))
        (maxiter : Z) (self : H2VQE) :
  in_range (bond_length self) ->
  let points :=
    callback_points (minimize (measure_expectation_value self)
                       (start_point random_uniform initial_params) maxiter) in
  let self' :=
    snd (optimize minimize random_uniform initial_params maxiter self) in
  bond_length self' = bond_length self /\
  iteration_count self' =
    (iteration_count self + Z.of_nat (length points))%Z /\
  params_log (history self') = params_log (history self) ++ points /\
  iterations (history self') =
    iterations (history self)
    ++ map (fun j => (iteration_count self + Z.of_nat j)%Z)
         (seq 1 (length points)) /\
  exists es : list R,
    energies (history self') = energies (history self) ++ es /\
    Forall2 (fun x e => measure_expectation_value self x = Ok e) points es.
Proof.
  intros Hr. cbv zeta. rewrite optimize_run by exact Hr.
  set (run := minimize _ _ _).
  destruct (for_each_callback_extends (callback_points run) self Hr)
    as (Hb & _ & _ & Hc & Hp & Hi & es & He & Hes).
  destruct (outcome run) as [res|e];
    cbn [snd set_optimal_params set_optimal_energy bond_length history
         iteration_count];
    (split; [exact Hb|]); (split; [exact Hc|]); (split; [exact Hp|]);
    (split; [exact Hi|]); exists es; split; assumption.
Qed.

(** X8.  [optimize] only appends to the history.  When the evaluation of
    the start point raises, [optimize] raises the same exception and the
    object is as before.  Otherwise, whether the minimiser returns or
    raises: with [m] the number of callback invocations, the counter grows
    by [m], the recorded parameters are the old ones followed by the [m]
    callback points, the recorded iteration numbers continue from the old
    counter, and the recorded energies are the old ones followed by the
    energy of each callback point; the bond length is not touched. *)
Theorem optimize_appends_to_history (initial_params : option (list R))
        (maxiter : Z) (self : H2VQE) :
  let x0 := start_point random_uniform initial_params in
  let points :=
    callback_points (minimize (measure_expectation_value self) x0 maxiter) in
  let out := optimize minimize random_uniform initial_params maxiter self in
  match measure_expectation_value self x0 with
  | Raise e => out = (Raise e, self)
  | Ok _ =>
      bond_length (snd out) = bond_length self /\
      iteration_count (snd out) =
        (iteration_count self + Z.of_nat (length points))%Z /\
      params_log (history (snd out)) = params_log (history self) ++ points /\
      iterations (history (snd out)) =
        iterations (history self)
        ++ map (fun j => (iteration_count self + Z.of_nat j)%Z)
             (seq 1 (length points)) /\
      exists es : list R,
        energies (history (snd out)) = energies (history self) ++ es /\
        Forall2 (fun x e => measure_expectation_value self x = Ok e) points es
  end.
Proof.
  cbv zeta. destruct (in_range_dec (bond_length self)) as [Hr|Hr].
  - rewrite (measure_closed_form self
               (start_point random_uniform initial_params) Hr).
    exact (optimize_extends initial_params maxiter self Hr).
  - rewrite (measure_out_of_range self
               (start_point random_uniform initial_params) Hr).
    apply optimize_overflow. exact Hr.
Qed.

(** X9.  When the evaluation of the start point raises, [optimize] raises
    the same exception and the stored optimum is as before.  Otherwise:
    when the minimiser returns, [optimize] returns its value and point and
    stores them as [optimal_energy] and [optimal_params]; when it raises,
    [optimize] raises the same exception and the two attributes keep what
    they held before the call. *)
Theorem optimize_stores_result (initial_params : option (list R))
        (maxiter : Z) (self : H2VQE) :
  let x0 := start_point random_uniform initial_params in
  let out := optimize minimize random_uniform initial_params maxiter self in
  match measure_expectation_value self x0 with
  | Raise e =>
      fst out = Raise e /\
      optimal_energy (snd out) = optimal_energy self /\
      optimal_params (snd out) = optimal_params self
  | Ok _ =>
      match outcome (minimize (measure_expectation_value self) x0 maxiter) with
      | Ok res =>
          fst out = Ok (res_fun res, res_x res) /\
          optimal_energy (snd out) = Some (res_fun res) /\
          optimal_params (snd out) = Some (res_x res)
      | Raise e =>
          fst out = Raise e /\
          optimal_energy (snd out) = optimal_energy self /\
          optimal_params (snd out) = optimal_params self
      end
  end.
Proof.
  cbv zeta. destruct (in_range_dec (bond_length self)) as [Hr|Hr].
  - rewrite (measure_closed_form self
               (start_point random_uniform initial_params) Hr).
    rewrite optimize_run by exact Hr.
    set (run := minimize _ _ _).
    destruct (for_each_callback_extends (callback_points run) self Hr)
      as (_ & Hoe & Hop & _).
    destruct (outcome run) as [res|e]; cbn [fst snd]; repeat split; assumption.
  - rewrite (measure_out_of_range self
               (start_point random_uniform initial_params) Hr).
    rewrite optimize_overflow by exact Hr. repeat split.
Qed.

Lemma history_matches_extended (self self' : H2VQE) (xs : list (list R))
      (es : list R) :
  history_matches self ->
  bond_length self' = bond_length self ->
  params_log (history self') = params_log (history self) ++ xs ->
  energies (history self') = energies (history self) ++ es ->
  Forall2 (fun x e => measure_expectation_value self x = Ok e) xs es ->
  history_matches self'.
Proof.
  unfold history_matches. intros Hold Hb Hp He Hnew.
  rewrite Hp, He. apply Forall2_app.
  - eapply Forall2_impl; [|exact Hold]. cbv beta. intros x e Hxe.
    rewrite <- Hxe. apply measure_depends_on_bond_length. exact Hb.
  - eapply Forall2_impl; [|exact Hnew]. cbv beta. intros x e Hxe.
    rewrite <- Hxe. apply measure_depends_on_bond_length. exact Hb.
Qed.

Lemma perform_history_matches (c : call) (self : H2VQE) :
  is_scan c = false ->
  history_matches self ->
  history_matches (perform minimize random_uniform c self).
Proof.
  intros Hc Hself. destruct c as [p n|xk|l]; cbn [perform];
    [| |discriminate Hc]; destruct (in_range_dec (bond_length self)) as [Hr|Hr].
  - destruct (optimize_extends p n self Hr)
      as (Hb & _ & Hp & _ & es & He & Hes).
    eapply history_matches_extended; eassumption.
  - rewrite optimize_overflow by exact Hr. exact Hself.
  - destruct (for_each_callback_extends [xk] self Hr)
      as (Hb & _ & _ & _ & Hp & _ & es & He & Hes).
    cbn [for_each] in Hb, Hp, He. unfold bind in Hb, Hp, He.
    rewrite callback_run in Hb, Hp, He |- * by exact Hr.
    cbn [ret snd] in Hb, Hp, He |- *.
    eapply history_matches_extended; eassumption.
  - rewrite callback_raises by exact Hr. cbn [snd].
    apply (history_matches_extended self _ [] []);
      [exact Hself|reflexivity| | |constructor];
      rewrite app_nil_r; reflexivity.
Qed.

(** X10.  As long as no scan is run on the object, every energy in the
    history is the energy [measure_expectation_value] gives for the
    parameters recorded at the same position. *)
Theorem history_energies_match_params (r : R) (calls : list call) :
  forallb (fun c => negb (is_scan c)) calls = true ->
  let self := after minimize random_uniform calls (__init__ r) in
  Forall2 (fun x e => measure_expectation_value self x = Ok e)
    (params_log (history self)) (energies (history self)).
Proof.
  intros Hcalls. cbv zeta.
  change (history_matches (after minimize random_uniform calls (__init__ r))).
  assert (Hinit : history_matches (__init__ r)) by constructor.
  revert Hinit. generalize (__init__ r). unfold after.
  induction calls as [|c calls IH]; intros self Hself.
  - exact Hself.
  - cbn [forallb] in Hcalls. apply andb_prop in Hcalls.
    destruct Hcalls as [Hc Hrest]. cbn [fold_left].
    apply (IH Hrest). apply perform_history_matches; [|exact Hself].
    destruct (is_scan c); [discriminate Hc|reflexivity].
Qed.

End HistoryProperties.

Lemma history_energies_match_params_witness :
  let quiet := fun (_ : list R -> result R) (x0 : list R) (_ : Z) =>
    {| callback_points := [x0];
       outcome := Ok {| res_fun := 0; res_x := x0 |} |} in
  let draw := fun (_ _ : R) (n : nat) => repeat 0 n in
  let calls := [CallOptimize None 10; CallCallback [0.5]] in
  forallb (fun c => negb (is_scan c)) calls = true /\
  let self := after quiet draw calls (__init__ 0.735) in
  Forall2 (fun x e => measure_expectation_value self x = Ok e)
    (params_log (history self)) (energies (history self)).
Proof.
  cbv zeta. split; [reflexivity|].
  exact (history_energies_match_params
           (fun _ x0 _ => {| callback_points := [x0];
                             outcome := Ok {| res_fun := 0; res_x := x0 |} |})
           (fun _ _ n => repeat 0 n) 0.735
           [CallOptimize None 10; CallCallback [0.5]] eq_refl).
Defined.

(** ** More on the scan *)

Lemma scanned_app (l1 l2 : list R) (self : H2VQE) :
  scanned (l1 ++ l2) self = scanned l2 (scanned l1 self).
Proof. unfold scanned. apply fold_left_app. Qed.

(** The two ways a scan ends. *)
Lemma get_energy_curve_cases (bond_lengths : list R) (self : H2VQE) :
  (Forall in_range bond_lengths /\
   get_energy_curve bond_lengths self =
   (Ok (bond_lengths, map scan_energy bond_lengths),
    scanned bond_lengths self)) \/
  (exists (l1 : list R) (r : R) (l2 : list R),
      bond_lengths = l1 ++ r :: l2 /\
      Forall in_range l1 /\ ~ in_range r /\
      get_energy_curve bond_lengths self =
      (Raise OverflowError, scanned (l1 ++ [r]) self)).
Proof.
  destruct (energy_curve_loop_cases bond_lengths [] self)
    as [[Hall _]|(l1 & r & l2 & -> & Hall & Hout & _)].
  - left. split; [exact Hall|]. apply get_energy_curve_run. exact Hall.
  - right. exists l1, r, l2. repeat split; try assumption.
    apply get_energy_curve_stops; assumption.
Qed.

(** X11.  Of the object, [get_energy_curve] changes the bond length only,
    whether it returns or raises: the history, the counter and the stored
    optimum are as before.  When it returns, it returns the sequence it was
    given with as many energies, and the bond length is left at the last
    element.  When it raises, it raises [OverflowError], some element is
    out of range for the squaring, and the bond length is left at the first
    such element.  On an empty sequence it returns two empty sequences and
    leaves the object as it was. *)
Theorem get_energy_curve_frame (self : H2VQE) (bond_lengths : list R) :
  let out := get_energy_curve bond_lengths self in
  (history (snd out) = history self /\
   iteration_count (snd out) = iteration_count self /\
   optimal_energy (snd out) = optimal_energy self /\
   optimal_params (snd out) = optimal_params self) /\
  match fst out with
  | Ok (returned, es) =>
      returned = bond_lengths /\
      length es = length bond_lengths /\
      bond_length (snd out) = last bond_lengths (bond_length self)
  | Raise e =>
      e = OverflowError /\
      exists (l1 : list R) (r : R) (l2 : list R),
        bond_lengths = l1 ++ r :: l2 /\
        Forall in_range l1 /\ ~ in_range r /\
        bond_length (snd out) = r
  end /\
  get_energy_curve [] self = (Ok ([], []), self).
Proof.
  cbv zeta. split; [|split].
  - destruct (get_energy_curve_visits bond_lengths self) as [visited ->].
    apply scanned_frame.
  - destruct (get_energy_curve_cases bond_lengths self)
      as [[Hall ->]|(l1 & r & l2 & Hsplit & Hall & Hout & ->)]; cbn [fst snd].
    + split; [reflexivity|]. split; [apply length_map|].
      apply scanned_bond_length.
    + split; [reflexivity|]. exists l1, r, l2.
      repeat split; try assumption.
      rewrite scanned_bond_length. apply last_last.
  - reflexivity.
Qed.

(** X12.  Scanning a concatenation is scanning the first part and then the
    second on the same object.  When the first part raises, the whole scan
    raises the same exception and leaves the same object.  When the first
    part returns, the whole scan leaves the object the second part leaves;
    it raises what the second part raises, and when the second part returns
    the energies are the two lists of energies one after the other.  What
    a scan returns or raises does not depend on the object it starts
    from. *)
Theorem get_energy_curve_app (self other : H2VQE) (l1 l2 : list R) :
  let first := get_energy_curve l1 self in
  let both := get_energy_curve (l1 ++ l2) self in
  match fst first with
  | Raise e => both = (Raise e, snd first)
  | Ok (_, e1) =>
      let second := get_energy_curve l2 (snd first) in
      snd both = snd second /\
      fst both =
        match fst second with
        | Ok (_, e2) => Ok (l1 ++ l2, e1 ++ e2)
        | Raise e => Raise e
        end
  end /\
  fst (get_energy_curve l1 other) = fst (get_energy_curve l1 self).
Proof.
  cbv zeta.
  destruct (get_energy_curve_cases l1 self)
    as [[Hall1 H1]|(m1 & r & m2 & -> & Hall1 & Hout & H1)].
  - rewrite H1. cbn [fst snd]. split.
    + destruct (get_energy_curve_cases l2 (scanned l1 self))
        as [[Hall2 H2]|(n1 & r & n2 & -> & Hall2 & Hout & H2)];
        rewrite H2; cbn [fst snd].
      * rewrite get_energy_curve_run
          by (apply Forall_app; split; assumption).
        cbn [fst snd]. rewrite scanned_app, map_app. split; reflexivity.
      * rewrite app_assoc.
        rewrite get_energy_curve_stops
          by (try (apply Forall_app; split); assumption).
        cbn [fst snd]. rewrite <- app_assoc, scanned_app.
        split; reflexivity.
    + rewrite get_energy_curve_run by exact Hall1. reflexivity.
  - rewrite H1. cbn [fst snd]. split.
    + rewrite <- app_assoc. cbn [app].
      apply get_energy_curve_stops; assumption.
    + rewrite get_energy_curve_stops by assumption. reflexivity.
Qed.


(** ** The example script *)

Lemma py_getitem_nonneg {A : Type} (l : list A) (i : nat) (d : A) :
  (i < length l)%nat -> py_getitem l (Z.of_nat i) = Ok (nth i l d).
Proof.
  intros Hi. unfold py_getitem. cbv zeta.
  destruct (Z.ltb_spec (Z.of_nat i) 0) as [Hneg|_]; [lia|].
  destruct (Z.leb_spec 0 (Z.of_nat i)) as [_|Hneg]; [|lia].
  destruct (Z.ltb_spec (Z.of_nat i) (Z.of_nat (length l))) as [_|Hge]; [|lia].
  cbn [andb]. rewrite Nat2Z.id.
  rewrite (nth_error_nth' l d Hi). reflexivity.
Qed.

Lemma py_getitem_last {A : Type} (l : list A) (d : A) :
  l <> [] -> py_getitem l (-1) = Ok (last l d).
Proof.
  intros Hne. unfold py_getitem.
  assert (Hlen : (0 < length l)%nat)
    by (destruct l; [contradiction|cbn [length]; lia]).
  cbv zeta. change (-1 <? 0)%Z with true. cbv iota.
  destruct (Z.leb_spec 0 (Z.of_nat (length l) + -1)) as [_|Hneg]; [|lia].
  destruct (Z.ltb_spec (Z.of_nat (length l) + -1) (Z.of_nat (length l)))
    as [_|Hge]; [|lia].
  cbn [andb].
  replace (Z.to_nat (Z.of_nat (length l) + -1)) with (length l - 1)%nat by lia.
  destruct (exists_last Hne) as (l' & a & ->).
  rewrite last_last, length_app. cbn [length].
  replace (length l' + 1 - 1)%nat with (length l') by lia.
  rewrite nth_error_app2, Nat.sub_diag by lia. reflexivity.
Qed.

Lemma py_getitem_empty {A : Type} (i : Z) :
  py_getitem (@nil A) i = Raise IndexError.
Proof.
  unfold py_getitem. cbn [length Z.of_nat]. cbv zeta.
  destruct (Z.ltb_spec i 0) as [Hi|Hi].
  - destruct (Z.leb_spec 0 (0 + i)) as [H|_]; [lia|reflexivity].
  - destruct (Z.ltb_spec i 0) as [H|_]; [lia|].
    rewrite andb_false_r. reflexivity.
Qed.

Lemma Forall2_last {A B : Type} (P : A -> B -> Prop) (la : list A)
      (lb : list B) (da : A) (db : B) :
  Forall2 P la lb -> la <> [] -> P (last la da) (last lb db).
Proof.
  intros H. induction H as [|a b la lb Hab Hrest IH]; intros Hne.
  - contradiction.
  - destruct Hrest as [|a' b' la' lb' Hab' Hrest'].
    + exact Hab.
    + apply IH. discriminate.
Qed.

Lemma last_numbered (c : Z) (k : nat) (d : Z) :
  last (map (fun j => (c + Z.of_nat j)%Z) (seq 1 (S k))) d =
  (c + Z.of_nat (S k))%Z.
Proof. rewrite seq_S, map_app. cbn [map]. apply last_last. Qed.

Section QuickExampleProperties.

Variable minimize : (list R -> result R) -> list R -> Z -> MinimizerRun.
Variable random_uniform : R -> R -> nat -> list R.

(** X13.  [example_4_convergence_analysis] depends on the trace not being
    empty: if the minimiser returns without having invoked the callback,
    the example raises [IndexError] at [energies[0]]; if the minimiser
    raises, the example raises the same exception; otherwise it returns,
    and it prints as initial and final energy the energies of the first and
    the last callback point and as total the number of callback
    invocations, which is the counter of the object it returns. *)
Theorem example_4_needs_a_trace :
  let vqe0 := __init__ 0.735 in
  let run := minimize (measure_expectation_value vqe0)
               (random_uniform 0 (2 * PI) 8) 100 in
  match outcome run, callback_points run with
  | Raise e, _ =>
      example_4_convergence_analysis minimize random_uniform = Raise e
  | Ok _, [] =>
      example_4_convergence_analysis minimize random_uniform =
      Raise IndexError
  | Ok _, x :: xs =>
      exists (vqe : H2VQE) (report : ConvergenceReport),
        example_4_convergence_analysis minimize random_uniform =
        Ok (vqe, report) /\
        measure_expectation_value vqe0 x = Ok (initial_energy report) /\
        measure_expectation_value vqe0 (last xs x) = Ok (final_energy report) /\
        energy_change report = final_energy report - initial_energy report /\
        total_iterations report = Z.of_nat (length (x :: xs)) /\
        iteration_count vqe = total_iterations report
  end.
Proof.
  cbv zeta. unfold example_4_convergence_analysis.
  rewrite optimize_run by exact in_range_equilibrium.
  change (start_point random_uniform None)
    with (random_uniform 0 (2 * PI) 8).
  set (run := minimize _ _ _).
  destruct (for_each_callback_extends (callback_points run) (__init__ 0.735)
              in_range_equilibrium)
    as (_ & _ & _ & Hc & _ & Hi & es & He & Hes).
  cbn [__init__ history energies iterations iteration_count app] in Hc, Hi, He.
  destruct (outcome run) as [res|e]; [|destruct (callback_points run); reflexivity].
  unfold get_history.
  cbn [set_optimal_params set_optimal_energy history].
  rewrite He, Hi.
  destruct (callback_points run) as [|x xs].
  - inversion Hes; subst. rewrite py_getitem_empty. reflexivity.
  - inversion Hes as [|x' e0 xs' es' Hx Hrest]; subst.
    assert (Hne : e0 :: es' <> []) by discriminate.
    assert (Hlen : length es' = length xs)
      by (symmetry; eapply Forall2_length; exact Hrest).
    change 0%Z with (Z.of_nat 0).
    rewrite !(py_getitem_nonneg (e0 :: es') 0 e0) by (cbn [length]; lia).
    rewrite !(py_getitem_last (e0 :: es') e0 Hne).
    rewrite (py_getitem_last _ 0%Z)
      by (cbn [length seq map]; discriminate).
    cbn [length]. rewrite last_numbered. cbn [rbind nth].
    assert (Hfinal : measure_expectation_value (__init__ 0.735) (last xs x) =
                     Ok (last (e0 :: es') e0)).
    { destruct Hrest as [|x1 e1 xs1 es1 Hx1 Hrest1]; [exact Hx|].
      change (last (e0 :: e1 :: es1) e0) with (last (e1 :: es1) e0).
      apply (Forall2_last
               (fun x e => measure_expectation_value (__init__ 0.735) x = Ok e)
               (x1 :: xs1) (e1 :: es1) x e0).
      - constructor; assumption.
      - discriminate. }
    destruct (1 <? S (length es'))%nat; cbn [rbind].
    + rewrite (py_getitem_nonneg (e0 :: es') (S (length es') / 2) e0)
        by (cbn [length]; apply Nat.div_lt; lia).
      destruct (Nat.ltb_spec 10 (S (length es'))) as [H10|H10]; cbn [rbind].
      * change 10%Z with (Z.of_nat 10).
        rewrite (py_getitem_nonneg (e0 :: es') 10 e0) by (cbn [length]; lia).
        cbn [rbind]. eexists. eexists. split; [reflexivity|].
        cbn [initial_energy final_energy energy_change total_iterations
             set_optimal_params set_optimal_energy iteration_count].
        repeat split; try assumption; rewrite ?Hc; cbn [length]; lia.
      * eexists. eexists. split; [reflexivity|].
        cbn [initial_energy final_energy energy_change total_iterations
             set_optimal_params set_optimal_energy iteration_count].
        repeat split; try assumption; rewrite ?Hc; cbn [length]; lia.
    + eexists. eexists. split; [reflexivity|].
      cbn [initial_energy final_energy energy_change total_iterations
           set_optimal_params set_optimal_energy iteration_count].
      repeat split; try assumption; rewrite ?Hc; cbn [length]; lia.
Qed.

End QuickExampleProperties.

Lemma argmin_from_spec (a pre : list R) (best_idx : nat) (best d : R) :
  (best_idx < length pre)%nat ->
  nth best_idx pre d = best ->
  (forall y, In y pre -> best <= y) ->
  (forall j, (j < best_idx)%nat -> best < nth j pre d) ->
  let k := argmin_from best_idx best (length pre) a in
  (k < length (pre ++ a))%nat /\
  (forall y, In y (pre ++ a) -> nth k (pre ++ a) d <= y) /\
  (forall j, (j < k)%nat -> nth k (pre ++ a) d < nth j (pre ++ a) d).
Proof.
  cbv zeta. revert pre best_idx best.
  induction a as [|x a IH]; intros pre best_idx best Hidx Hbest Hmin Hfirst.
  - cbn [argmin_from]. rewrite app_nil_r, Hbest. repeat split.
    + exact Hidx.
    + exact Hmin.
    + exact Hfirst.
  - cbn [argmin_from].
    replace (pre ++ x :: a) with ((pre ++ [x]) ++ a)
      by (rewrite <- app_assoc; reflexivity).
    replace (S (length pre)) with (length (pre ++ [x]))
      by (rewrite length_app; cbn [length]; lia).
    destruct (Rlt_dec x best) as [Hlt|Hge].
    + apply IH.
      * rewrite length_app. cbn [length]. lia.
      * apply nth_middle.
      * intros y Hy. apply in_app_iff in Hy. destruct Hy as [Hy|[<-|[]]].
        -- specialize (Hmin y Hy). lra.
        -- lra.
      * intros j Hj. rewrite app_nth1 by exact Hj.
        assert (Hin : In (nth j pre d) pre) by (apply nth_In; exact Hj).
        specialize (Hmin _ Hin). lra.
    + apply IH.
      * rewrite length_app. cbn [length]. lia.
      * rewrite app_nth1 by exact Hidx. exact Hbest.
      * intros y Hy. apply in_app_iff in Hy. destruct Hy as [Hy|[<-|[]]].
        -- apply Hmin. exact Hy.
        -- lra.
      * intros j Hj. rewrite app_nth1 by lia. apply Hfirst. exact Hj.
Qed.

(** [np_argmin] on a non-empty array: a valid index, of a least entry, and
    the first such. *)
Lemma np_argmin_spec (a : list R) (d : R) :
  a <> [] ->
  exists k : nat,
    np_argmin a = Ok k /\
    (k < length a)%nat /\
    (forall y, In y a -> nth k a d <= y) /\
    (forall j, (j < k)%nat -> nth k a d < nth j a d).
Proof.
  destruct a as [|x a]; [contradiction|]. intros _.
  exists (argmin_from 0 x 1 a). split; [reflexivity|].
  apply (argmin_from_spec a [x] 0 x d).
  - cbn [length]. lia.
  - reflexivity.
  - intros y [<-|[]]. lra.
  - intros j Hj. lia.
Qed.

Lemma np_linspace_length (start stop : R) (num : nat) :
  length (np_linspace start stop num) = num.
Proof. unfold np_linspace. rewrite length_map, length_seq. reflexivity. Qed.

(** The grid of the example is in range. *)
Lemma grid_in_range : Forall in_range (np_linspace 0.4 2.0 12).
Proof.
  unfold np_linspace. cbn [seq map Nat.sub INR].
  repeat constructor; apply in_range_near; lra.
Qed.

(** X14.  [example_3_energy_curve] never raises.  It scans the twelve
    evenly spaced bond lengths from 0.4 to 2.0 and returns them with their
    twelve energies; the minimum it prints is an energy of the curve that
    no other energy of the curve is below, and the bond length it prints
    is the one at the same position, whose energy it is. *)
Theorem example_3_reports_minimum :
  exists (bls es : list R) (m : CurveMinimum),
    example_3_energy_curve = Ok ((bls, es), m) /\
    length bls = 12%nat /\ length es = 12%nat /\
    nth 0 bls 0 = 0.4 /\ last bls 0 = 2.0 /\
    (forall e, In e es -> minimum_energy m <= e) /\
    (exists i : nat,
        nth_error bls i = Some (at_bond_length m) /\
        nth_error es i = Some (minimum_energy m)) /\
    measure_expectation_value (__init__ (at_bond_length m))
      [0.5; 0.5; 0.5; 0.5; 0.5; 0.5; 0.5; 0.5] = Ok (minimum_energy m).
Proof.
  unfold example_3_energy_curve.
  rewrite get_energy_curve_run by exact grid_in_range. cbn [fst].
  set (bls := np_linspace 0.4 2.0 12).
  assert (Hlen : length bls = 12%nat) by apply np_linspace_length.
  assert (Hlen' : length (map scan_energy bls) = 12%nat)
    by (rewrite length_map; exact Hlen).
  assert (Hne : map scan_energy bls <> [])
    by (intros H; rewrite H in Hlen'; discriminate Hlen').
  destruct (np_argmin_spec (map scan_energy bls) 0 Hne)
    as (k & Hk & Hlt & Hmin & _).
  rewrite Hk. cbn [rbind].
  rewrite (py_getitem_nonneg (map scan_energy bls) k 0) by exact Hlt.
  rewrite (py_getitem_nonneg bls k 0) by lia.
  cbn [rbind]. do 3 eexists. split; [reflexivity|].
  cbn [minimum_energy at_bond_length].
  split; [exact Hlen|]. split; [exact Hlen'|].
  split; [|split; [|split; [exact Hmin|split]]].
  - subst bls. unfold np_linspace. cbn [seq map nth INR]. lra.
  - subst bls. unfold np_linspace. cbn [seq map last Nat.sub INR]. field.
  - exists k. split; apply nth_error_nth'; lia.
  - rewrite (nth_indep (map scan_energy bls) 0 (scan_energy 0)) by exact Hlt.
    rewrite map_nth. unfold scan_energy.
    change [0.5; 0.5; 0.5; 0.5; 0.5; 0.5; 0.5; 0.5] with (repeat 0.5 8).
    apply measure_closed_form. cbn [__init__ bond_length].
    apply (proj1 (Forall_nth in_range bls) grid_in_range). lia.
Qed.

(** ** The dependency check *)

Section VerifyInstallationProperties.

Import String.
Import verify_installation.

Variable import_module : string -> import_outcome.

Lemma check_module_caught (module_name display_name : string) :
  import_module module_name <> RaisesOther ->
  exists l : line,
    check_module import_module module_name (Some display_name) =
    Some (l, imports import_module module_name) /\
    ok_mark l = imports import_module module_name /\
    shown_name l = or_name (Some display_name) module_name.
Proof.
  intros Hother. unfold check_module, imports.
  destruct (import_module module_name) as [[v|]| |];
    [eexists; repeat split ..|contradiction].
Qed.

Lemma check_loop_all_caught (modules : list (string * string))
      (printed : list line) (all_installed : bool) :
  (forall m, In m (map fst modules) -> import_module m <> RaisesOther) ->
  exists added : list line,
    check_loop import_module modules printed all_installed =
    (printed ++ added,
     Some (all_installed && forallb (imports import_module) (map fst modules))%bool) /\
    map ok_mark added = map (imports import_module) (map fst modules) /\
    map shown_name added =
      map (fun md => or_name (Some (snd md)) (fst md)) modules.
Proof.
  revert printed all_installed.
  induction modules as [|[m d] modules IH]; intros printed all_installed Hall.
  - exists []. cbn [check_loop map forallb]. rewrite app_nil_r, andb_true_r.
    repeat split.
  - cbn [check_loop map fst snd forallb].
    destruct (check_module_caught m d) as (l & Hl & Hmark & Hname).
    { apply Hall. left. reflexivity. }
    rewrite Hl.
    destruct (IH (printed ++ [l])
                 (if negb (imports import_module m) then false
                  else all_installed))
      as (added & Hloop & Hmarks & Hnames).
    { intros m' Hm'. apply Hall. right. exact Hm'. }
    exists (l :: added). rewrite Hloop, <- app_assoc. cbn [app map].
    rewrite Hmark, Hname, Hmarks, Hnames. repeat split.
    destruct (imports import_module m), all_installed; reflexivity.
Qed.

(** X15.  When no import fails with anything but [ImportError], [main]
    checks all seven modules, whatever the earlier ones gave: it prints one
    line per module, in the listed order and under the listed display
    name, marked as installed exactly when the import succeeds; and it
    returns 0 when all seven imports succeed and 1 otherwise. *)
Theorem main_checks_every_module :
  (forall m, In m (map fst modules_to_check) ->
             import_module m <> RaisesOther) ->
  snd (main import_module) =
    Some (if forallb (imports import_module) (map fst modules_to_check)
          then 0%Z else 1%Z) /\
  map shown_name (fst (main import_module)) = map snd modules_to_check /\
  map ok_mark (fst (main import_module)) =
    map (imports import_module) (map fst modules_to_check).
Proof.
  intros Hall. unfold main.
  destruct (check_loop_all_caught modules_to_check [] true Hall)
    as (added & Hloop & Hmarks & Hnames).
  rewrite Hloop. cbn [app fst snd andb].
  split; [reflexivity|]. split; [|exact Hmarks].
  rewrite Hnames. reflexivity.
Qed.

End VerifyInstallationProperties.

Section VerifyInstallationWitness.

Import String.

Lemma main_checks_every_module_witness :
  let only_numpy := fun m : String.string =>
    if String.eqb m "numpy"%string
    then verify_installation.Imported None
    else verify_installation.RaisesImportError in
  (forall m, In m (map fst verify_installation.modules_to_check) ->
             only_numpy m <> verify_installation.RaisesOther) /\
  snd (verify_installation.main only_numpy) = Some 1%Z /\
  map verify_installation.ok_mark (fst (verify_installation.main only_numpy)) =
    [false; false; true; false; false; false; false].
Proof.
  cbv zeta.
  assert (H : forall m, In m (map fst verify_installation.modules_to_check) ->
                (if String.eqb m "numpy"%string
                 then verify_installation.Imported None
                 else verify_installation.RaisesImportError)
                <> verify_installation.RaisesOther).
  { intros m _. destruct (String.eqb m "numpy"%string); discriminate. }
  split; [exact H|].
  destruct (main_checks_every_module _ H) as (Hstatus & _ & Hmarks).
  split; [exact Hstatus | exact Hmarks].
Defined.

End VerifyInstallationWitness.

(** ** The dashboard *)

Section AppProperties.

Variable minimize : (list R -> result R) -> list R -> Z -> MinimizerRun.
Variable random_uniform : R -> R -> nat -> list R.

(** X16.  With the slider at a bond length in range, as every value the
    slider offers (0.3 to 2.0) is, a click on the run button whose
    minimiser returns sets the flag and shows the summary of that run,
    whatever the session held before:
    the energy is the value the minimiser reports, the bond length is the
    slider value, the iterations are the number of callback invocations
    and the error is the distance of the energy from -1.17. *)
Theorem app_successful_run (w : app.Widgets) (st : option app.SessionState)
        (res : OptimizeResult) :
  in_range (app.bond_length_slider w) ->
  app.run_simulation w = true ->
  outcome (app.clicked_run minimize random_uniform w) = Ok res ->
  exists v : H2VQE,
    app.rerun minimize random_uniform w st =
    ({| app.vqe := Some v; app.optimization_done := true |},
     app.Success (res_fun res),
     app.Shown
       {| app.metric_energy := res_fun res;
          app.metric_bond_length := app.bond_length_slider w;
          app.metric_iterations :=
            Z.of_nat (length (callback_points (app.clicked_run minimize random_uniform w)));
          app.metric_error := Rabs (res_fun res + 1.17) |}).
Proof.
  intros Hr Hclick Hout. unfold app.rerun, app.run_branch. rewrite Hclick.
  rewrite optimize_run by exact Hr.
  change (start_point random_uniform (Some (random_uniform 0 (2 * PI) 8)))
    with (random_uniform 0 (2 * PI) 8).
  fold (app.clicked_run minimize random_uniform w). rewrite Hout.
  destruct (for_each_callback_extends (callback_points (app.clicked_run minimize random_uniform w))
              (__init__ (app.bond_length_slider w)) Hr)
    as (Hb & _ & _ & Hc & _).
  eexists. cbv iota beta. unfold app.results_summary.
  cbn [app.optimization_done app.vqe set_optimal_params set_optimal_energy
       optimal_energy bond_length iteration_count].
  rewrite Hb, Hc. cbn [__init__ bond_length iteration_count].
  rewrite Z.add_0_l.
  replace (res_fun res - -1.17) with (res_fun res + 1.17) by lra.
  reflexivity.
Qed.

(** X17.  The flag is never cleared.  With the slider at a bond length in
    range, as every value the slider offers (0.3 to 2.0) is, a click whose
    minimiser raises is reported as an error and replaces the stored object by the new one,
    which has no optimum; if an earlier run had set the flag, the results
    summary is then entered and stops with [TypeError]; if the flag was
    not set, the summary is not shown. *)
Theorem app_failed_run (w : app.Widgets) (st : option app.SessionState)
        (e : exn) :
  in_range (app.bond_length_slider w) ->
  app.run_simulation w = true ->
  outcome (app.clicked_run minimize random_uniform w) = Raise e ->
  let done_before := app.optimization_done (app.init_session st) in
  exists v : H2VQE,
    optimal_energy v = None /\
    app.rerun minimize random_uniform w st =
    ({| app.vqe := Some v; app.optimization_done := done_before |},
     app.Error e,
     if done_before then app.RaisesTypeError else app.NotShown).
Proof.
  intros Hr Hclick Hout. cbv zeta. unfold app.rerun, app.run_branch.
  rewrite Hclick. rewrite optimize_run by exact Hr.
  change (start_point random_uniform (Some (random_uniform 0 (2 * PI) 8)))
    with (random_uniform 0 (2 * PI) 8).
  fold (app.clicked_run minimize random_uniform w). rewrite Hout.
  destruct (for_each_callback_extends (callback_points (app.clicked_run minimize random_uniform w))
              (__init__ (app.bond_length_slider w)) Hr)
    as (_ & Hoe & _).
  cbn [__init__ optimal_energy] in Hoe.
  eexists. split; [exact Hoe|].
  cbv iota beta. unfold app.results_summary.
  cbn [app.optimization_done app.vqe]. rewrite Hoe.
  destruct (app.optimization_done (app.init_session st)); reflexivity.
Qed.

End AppProperties.

Lemma in_range_1_5 : in_range 1.5.
Proof. apply in_range_near. lra. Defined.

Lemma app_successful_run_witness :
  let steady := fun (_ : list R -> result R) (x0 : list R) (_ : Z) =>
    {| callback_points := [x0; x0];
       outcome := Ok {| res_fun := -1; res_x := x0 |} |} in
  let draw := fun (_ _ : R) (n : nat) => repeat 0 n in
  let w := {| app.bond_length_slider := 0.735; app.max_iterations := 50;
              app.run_simulation := true |} in
  in_range (app.bond_length_slider w) /\
  app.run_simulation w = true /\
  outcome (app.clicked_run steady draw w) =
    Ok {| res_fun := -1; res_x := repeat 0 8 |} /\
  snd (app.rerun steady draw w None) =
    app.Shown {| app.metric_energy := -1; app.metric_bond_length := 0.735;
                 app.metric_iterations := 2;
                 app.metric_error := Rabs (-1 + 1.17) |}.
Proof.
  cbv zeta. split; [exact in_range_equilibrium|].
  split; [reflexivity|]. split; [reflexivity|].
  destruct (app_successful_run
              (fun _ x0 _ => {| callback_points := [x0; x0];
                                outcome := Ok {| res_fun := -1; res_x := x0 |} |})
              (fun _ _ n => repeat 0 n)
              {| app.bond_length_slider := 0.735; app.max_iterations := 50;
                 app.run_simulation := true |}
              None {| res_fun := -1; res_x := repeat 0 8 |}
              in_range_equilibrium eq_refl eq_refl) as (v & Hv).
  rewrite Hv. reflexivity.
Defined.

Lemma app_failed_run_witness :
  let failing := fun (_ : list R -> result R) (x0 : list R) (_ : Z) =>
    {| callback_points := [x0]; outcome := Raise (MinimizerError 1) |} in
  let draw := fun (_ _ : R) (n : nat) => repeat 0 n in
  let w := {| app.bond_length_slider := 1.5; app.max_iterations := 50;
              app.run_simulation := true |} in
  let earlier := Some {| app.vqe := Some (__init__ 0.735);
                         app.optimization_done := true |} in
  in_range (app.bond_length_slider w) /\
  app.run_simulation w = true /\
  outcome (app.clicked_run failing draw w) = Raise (MinimizerError 1) /\
  snd (app.rerun failing draw w earlier) = app.RaisesTypeError.
Proof.
  cbv zeta. split; [exact in_range_1_5|].
  split; [reflexivity|]. split; [reflexivity|].
  destruct (app_failed_run
              (fun _ x0 _ => {| callback_points := [x0];
                                outcome := Raise (MinimizerError 1) |})
              (fun _ _ n => repeat 0 n)
              {| app.bond_length_slider := 1.5; app.max_iterations := 50;
                 app.run_simulation := true |}
              (Some {| app.vqe := Some (__init__ 0.735);
                       app.optimization_done := true |})
              (MinimizerError 1) in_range_1_5 eq_refl eq_refl)
    as (v & _ & Hv).
  rewrite Hv. reflexivity.
Defined.

(** ** The shape of the scanned curve *)

Lemma PI_bounds : 3 < PI <= 7 / 2.
Proof.
  split.
  - pose proof PI2_3_2. lra.
  - unfold PI. destruct pi2_int. lra.
Qed.

Lemma sin_4_negative : sin 4 < 0.
Proof. destruct PI_bounds. apply sin_lt_0; lra. Qed.

Lemma scan_energy_value (r : R) :
  scan_energy r =
  -1.0523732
  + 0.39793742 * np.exp (-0.1 * (r - 0.735) ^ 2)
    * (0.3 * cos (0.5 * 0.5 * 0.5 * 0.5) * sin 4)
  + -0.39793742 * 0.5 * np.exp (-0.05 * (r - 0.735) ^ 2) * (0.2 * cos 0.5)
  + -0.39793742 * 0.5 * np.exp (-0.05 * (r - 0.735) ^ 2) * (0.2 * sin 0.5)
  + 0.001 * sin 18.
Proof.
  unfold scan_energy, energy_formula, hamiltonian_at.
  cbn [II ZZ ZI IZ repeat length big_sum item nth
       Nat.leb Nat.ltb Nat.add INR].
  replace (0 + 0.5 + 0.5 + 0.5 + 0.5 + 0.5 + 0.5 + 0.5 + 0.5) with 4 by lra.
  replace (0 + 0.5 * 1 + 0.5 * (1 + 1) + 0.5 * (1 + 1 + 1)
           + 0.5 * (1 + 1 + 1 + 1) + 0.5 * (1 + 1 + 1 + 1 + 1)
           + 0.5 * (1 + 1 + 1 + 1 + 1 + 1)
           + 0.5 * (1 + 1 + 1 + 1 + 1 + 1 + 1)
           + 0.5 * (1 + 1 + 1 + 1 + 1 + 1 + 1 + 1)) with 18 by lra.
  reflexivity.
Qed.

(** Where the exponentials do not underflow, the energy of the scan grows
    with the distance of the bond length from 0.735. *)
Lemma scan_energy_increasing (r1 r2 : R) :
  -80 <= r1 <= 80 -> -80 <= r2 <= 80 ->
  Rabs (r1 - 0.735) < Rabs (r2 - 0.735) -> scan_energy r1 < scan_energy r2.
Proof.
  intros Hr1 Hr2 Hd. apply Rsqr_lt_abs_1 in Hd. unfold Rsqr in Hd.
  rewrite !scan_energy_value.
  rewrite !np_exp_exact by nra.
  assert (Ha : exp (-0.1 * (r2 - 0.735) ^ 2) < exp (-0.1 * (r1 - 0.735) ^ 2))
    by (apply exp_increasing; nra).
  assert (Hb : exp (-0.05 * (r2 - 0.735) ^ 2) < exp (-0.05 * (r1 - 0.735) ^ 2))
    by (apply exp_increasing; nra).
  destruct PI_bounds as [Hpi _].
  assert (Hcq : 0 < cos (0.5 * 0.5 * 0.5 * 0.5)) by (apply cos_gt_0; lra).
  assert (Hc5 : 0 < cos 0.5) by (apply cos_gt_0; lra).
  assert (Hs5 : 0 < sin 0.5) by (apply sin_gt_0; lra).
  pose proof sin_4_negative as Hs4.
  set (a1 := exp (-0.1 * (r1 - 0.735) ^ 2)) in *.
  set (a2 := exp (-0.1 * (r2 - 0.735) ^ 2)) in *.
  set (b1 := exp (-0.05 * (r1 - 0.735) ^ 2)) in *.
  set (b2 := exp (-0.05 * (r2 - 0.735) ^ 2)) in *.
  set (cq := cos (0.5 * 0.5 * 0.5 * 0.5)) in *.
  assert (Hk : cq * sin 4 < 0) by nra.
  assert (H1 : (cq * sin 4) * a1 < (cq * sin 4) * a2) by nra.
  assert (H2 : b2 * cos 0.5 < b1 * cos 0.5) by nra.
  assert (H3 : b2 * sin 0.5 < b1 * sin 0.5) by nra.
  nra.
Qed.

Lemma grid_point_bounds (k : nat) :
  (k < 12)%nat -> -80 <= 0.4 + INR k * (1.6 / 11) <= 80.
Proof.
  intros Hk. assert (H0 : 0 <= INR k) by apply pos_INR.
  assert (H12 : INR k <= INR 12) by (apply le_INR; lia).
  replace (INR 12) with 12 in H12 by (cbn [INR]; lra).
  lra.
Qed.

Lemma grid_point (k : nat) :
  (k < 12)%nat ->
  nth k (np_linspace 0.4 2.0 12) 0 = 0.4 + INR k * (1.6 / 11).
Proof.
  intros Hk. unfold np_linspace.
  do 12 (destruct k as [|k];
         [cbn [seq map nth Nat.sub INR]; lra|]).
  lia.
Qed.

Lemma grid_third_point_nearest (k : nat) :
  (k < 12)%nat -> k <> 2%nat ->
  Rabs (nth 2 (np_linspace 0.4 2.0 12) 0 - 0.735) <
  Rabs (nth k (np_linspace 0.4 2.0 12) 0 - 0.735).
Proof.
  intros Hk Hne. rewrite (grid_point 2) by lia. rewrite (grid_point k Hk).
  apply Rsqr_lt_abs_0. unfold Rsqr.
  do 12 (destruct k as [|k]; [try lia; cbn [INR]; nra|]).
  lia.
Qed.

(** X19.  The minimum that [example_3_energy_curve] prints is the third
    point of its grid, the bond length 0.4 + 2 * (1.6 / 11), about 0.691:
    the grid point nearest to 0.735, which is not on the grid. *)
Theorem example_3_minimum_location :
  exists (bls es : list R) (m : CurveMinimum),
    example_3_energy_curve = Ok ((bls, es), m) /\
    nth_error bls 2 = Some (at_bond_length m) /\
    nth_error es 2 = Some (minimum_energy m) /\
    at_bond_length m = 0.4 + 2 * (1.6 / 11) /\
    0.69 < at_bond_length m < 0.692.
Proof.
  unfold example_3_energy_curve.
  rewrite get_energy_curve_run by exact grid_in_range. cbn [fst].
  set (bls := np_linspace 0.4 2.0 12).
  assert (Hlen : length bls = 12%nat) by apply np_linspace_length.
  assert (Hlen' : length (map scan_energy bls) = 12%nat)
    by (rewrite length_map; exact Hlen).
  assert (Hne : map scan_energy bls <> [])
    by (intros H; rewrite H in Hlen'; discriminate Hlen').
  destruct (np_argmin_spec (map scan_energy bls) (scan_energy 0) Hne)
    as (k & Hk & Hlt & Hmin & _).
  assert (Hk2 : k = 2%nat).
  { destruct (Nat.eq_dec k 2) as [Heq|Hneq]; [exact Heq|exfalso].
    assert (Hin : In (nth 2 (map scan_energy bls) (scan_energy 0))
                     (map scan_energy bls)) by (apply nth_In; lia).
    specialize (Hmin _ Hin). rewrite !map_nth in Hmin.
    pose proof (grid_third_point_nearest k ltac:(lia) Hneq) as Hnear.
    apply scan_energy_increasing in Hnear.
    - fold bls in Hnear. lra.
    - rewrite (grid_point 2) by lia. apply grid_point_bounds. lia.
    - rewrite (grid_point k) by lia. apply grid_point_bounds. lia. }
  subst k. rewrite Hk. cbn [rbind].
  rewrite (py_getitem_nonneg (map scan_energy bls) 2 0) by lia.
  rewrite (py_getitem_nonneg bls 2 0) by lia.
  cbn [rbind]. do 3 eexists. split; [reflexivity|].
  cbn [minimum_energy at_bond_length].
  split; [apply nth_error_nth'; lia|].
  split; [apply nth_error_nth'; lia|].
  subst bls. rewrite (grid_point 2) by lia. cbn [INR]. split; lra.
Qed.
